(** * Medicine reminder bot: pending-reminder tracker, dose recording, store

    A shallow embedding of [src/index.js].  Every JavaScript function that the
    properties below talk about is transcribed as a Rocq function of the same
    name.  The process state (the Redis value, the in-memory reminder map, the
    queue of [setTimeout] callbacks, the clock and the error console) is
    threaded explicitly through a small state monad.

    Conventions:
    - JavaScript numbers are modelled by [Z]; the values the handlers store
      come from [parseInt] of [\d+] captures.  Sums and differences are those
      of the integers, which is what the program computes as long as the
      values stay within [Number.MAX_SAFE_INTEGER]; a statement that depends
      on the exact value of a sum or difference carries that bound.
    - Strings are their UTF-8 bytes.
    - [await] points are sequential: a handler runs to completion before the
      next one starts, and the two [sendReminders] calls of a cron tick run one
      after the other.
    - Time passes only between handlers ([advanceTo]), which is also when due
      [setTimeout] callbacks run.
    - A reply is the last step of a handler and leaves no trace in the state;
      it is kept as the values its text is built from.  The push of a
      reminder can fail, which [sendReminders] catches.
    - [redis.get] returns a freshly deserialised object on every call, so the
      profile a handler mutates is private until it is saved; value semantics
      is therefore exact. *)

From stdpp Require Import gmap strings list fin_maps pretty.
From Stdlib Require Import ZArith Lia Sorted.

Local Open Scope Z_scope.
#[local] Set Warnings "-clear-no-such-hyp".

(** ** Data model *)

Record Medicine := mkMedicine {
  id : string;
  name : string;
  totalPills : Z;
  remainingPills : Z;
  pillsPerDose : Z;
  timeSlot : Z;
  createdAt : Z  (* the instant that [new Date().toISOString()] prints *)
}.

Record Settings := mkSettings {
  time1 : string;
  time2 : string
}.

Record UserProfile := mkUser {
  medicines : list Medicine;
  settings : Settings;
  alertedMedicines : gmap string Z
}.

(** [pendingReminders] entries: [{ timeSlot, timestamp }], the first field
    under the name [pendingSlot]. *)
Record PendingAck := mkPending {
  pendingSlot : Z;
  timestamp : Z
}.

Record World := mkWorld {
  redisData : option (gmap string UserProfile); (* value under 'medicine_bot_data' *)
  redisFaults : list bool;   (* outcome of the coming Redis calls, true = the call throws *)
  consoleErrors : list string;                  (* console.error lines, oldest first *)
  clock : Z;                                    (* Date.now(), milliseconds *)
  pendingReminders : gmap string PendingAck;
  timers : list (Z * string);                   (* armed setTimeout callbacks: deadline, userId *)
  pushFaults : gmap string (list bool)
    (* outcome of the coming pushMessage calls to each user, true = the call throws *)
}.

Global Instance Medicine_eq_dec : EqDecision Medicine.
Proof. solve_decision. Defined.
Global Instance Settings_eq_dec : EqDecision Settings.
Proof. solve_decision. Defined.
Global Instance PendingAck_eq_dec : EqDecision PendingAck.
Proof. solve_decision. Defined.

Definition set_remainingPills (v : Z) (m : Medicine) : Medicine :=
  mkMedicine (id m) (name m) (totalPills m) v (pillsPerDose m) (timeSlot m) (createdAt m).

Definition set_medicines (ms : list Medicine) (u : UserProfile) : UserProfile :=
  mkUser ms (settings u) (alertedMedicines u).

Definition set_alertedMedicines (a : gmap string Z) (u : UserProfile) : UserProfile :=
  mkUser (medicines u) (settings u) a.

Definition set_settings (s : Settings) (u : UserProfile) : UserProfile :=
  mkUser (medicines u) s (alertedMedicines u).

Definition withData (d : option (gmap string UserProfile)) (w : World) : World :=
  mkWorld d (redisFaults w) (consoleErrors w) (clock w) (pendingReminders w) (timers w)
          (pushFaults w).

Definition withFaults (f : list bool) (w : World) : World :=
  mkWorld (redisData w) f (consoleErrors w) (clock w) (pendingReminders w) (timers w)
          (pushFaults w).

Definition withErrors (e : list string) (w : World) : World :=
  mkWorld (redisData w) (redisFaults w) e (clock w) (pendingReminders w) (timers w)
          (pushFaults w).

Definition withPending (p : gmap string PendingAck) (w : World) : World :=
  mkWorld (redisData w) (redisFaults w) (consoleErrors w) (clock w) p (timers w)
          (pushFaults w).

Definition withTimers (t : list (Z * string)) (w : World) : World :=
  mkWorld (redisData w) (redisFaults w) (consoleErrors w) (clock w) (pendingReminders w) t
          (pushFaults w).

Definition withPushFaults (f : gmap string (list bool)) (w : World) : World :=
  mkWorld (redisData w) (redisFaults w) (consoleErrors w) (clock w) (pendingReminders w)
          (timers w) f.

(** ** The state monad of a handler *)

Definition M (A : Type) : Type := World → A * World.

Definition ret {A} (a : A) : M A := λ w, (a, w).

Definition bind {A B} (m : M A) (k : A → M B) : M B :=
  λ w, let '(a, w') := m w in k a w'.

Notation "'let*' x ':=' m 'in' k" := (bind m (λ x, k))
  (at level 10, x name, m at level 100, k at level 200, only parsing).
Notation "'do' m 'then' k" := (bind m (λ _, k))
  (at level 10, m at level 100, k at level 200, only parsing).

(** Running a handler for its effect on the world, or for its result. *)
Definition exec {A} (m : M A) (w : World) : World := (m w).2.
Definition eval {A} (m : M A) (w : World) : A := (m w).1.

Definition dateNow : M Z := λ w, (clock w, w).

Definition consoleError (line : string) : M unit := λ w,
  (tt, withErrors (consoleErrors w ++ [line]) w).

(** One Redis round trip: consumes the next scheduled outcome.  With no
    outcome scheduled the call succeeds. *)
Definition redisCall : M bool := λ w,
  match redisFaults w with
  | [] => (false, w)
  | failed :: rest => (failed, withFaults rest w)
  end.

Definition redisRead : M (option (gmap string UserProfile)) := λ w, (redisData w, w).

Definition redisWrite (data : gmap string UserProfile) : M unit := λ w,
  (tt, withData (Some data) w).

(** ** Redis storage *)

(** [loadData]: [data || {}] on success, [{}] from the [catch]. *)
Definition loadData : M (gmap string UserProfile) :=
  let* failed := redisCall in
  if failed then
    do consoleError "Error loading data:" then ret ∅
  else
    let* data := redisRead in
    ret (default ∅ data).

Definition saveData (data : gmap string UserProfile) : M unit :=
  let* failed := redisCall in
  if failed then consoleError "Error saving data:"
  else redisWrite data.

Definition defaultUser : UserProfile :=
  mkUser [] (mkSettings "08:00" "20:00") ∅.

Definition getUser (userId : string) : M UserProfile :=
  let* data := loadData in
  match data !! userId with
  | None =>
      do saveData (<[userId := defaultUser]> data) then
      ret defaultUser
  | Some user => ret user
  end.

Definition saveUser (userId : string) (userData : UserProfile) : M unit :=
  let* data := loadData in
  saveData (<[userId := userData]> data).

(** ** Reminder state *)

Definition THIRTY_MINUTES : Z := 30 * 60 * 1000.

Definition setPendingReminder (userId : string) (slot : Z) : M unit := λ w,
  (tt, withTimers (timers w ++ [(clock w + THIRTY_MINUTES, userId)])
         (withPending (<[userId := mkPending slot (clock w)]> (pendingReminders w)) w)).

Definition pendingDelete (userId : string) : M unit := λ w,
  (tt, withPending (delete userId (pendingReminders w)) w).

Definition getPendingReminder (userId : string) : M (option PendingAck) := λ w,
  match pendingReminders w !! userId with
  | None => (None, w)
  | Some pending =>
      let elapsed := clock w - timestamp pending in
      if THIRTY_MINUTES <? elapsed then
        (None, withPending (delete userId (pendingReminders w)) w)
      else (Some pending, w)
  end.

(** The event loop between two handlers: the clock moves to [t] and every
    [setTimeout] callback whose deadline has been reached runs, oldest first.
    Each callback is [pendingReminders.delete(userId)].  A callback whose
    deadline is [t] itself runs here before the handler at [t]; the program
    may as well run that handler first ([advanceBefore]). *)
Definition fireTimers (due : list (Z * string)) (p : gmap string PendingAck)
  : gmap string PendingAck :=
  foldl (λ acc timer, delete timer.2 acc) p due.

Definition advanceTo (t : Z) (w : World) : World :=
  let due := filter (λ timer, timer.1 ≤ t) (timers w) in
  let waiting := filter (λ timer, ¬ timer.1 ≤ t) (timers w) in
  mkWorld (redisData w) (redisFaults w) (consoleErrors w) t
          (fireTimers due (pendingReminders w)) waiting (pushFaults w).

(** The other order at the instant of a deadline: the handler at [t] runs
    before the callbacks whose deadline is [t], so only those with an earlier
    deadline have run. *)
Definition advanceBefore (t : Z) (w : World) : World :=
  let due := filter (λ timer, timer.1 < t) (timers w) in
  let waiting := filter (λ timer, ¬ timer.1 < t) (timers w) in
  mkWorld (redisData w) (redisFaults w) (consoleErrors w) t
          (fireTimers due (pendingReminders w)) waiting (pushFaults w).

Definition emptyWorld : World := mkWorld None [] [] 0 ∅ [] ∅.

(** ** JavaScript helpers used by the medicine functions *)

(** Truthiness of a property read [obj[key]] whose values are numbers:
    [undefined] and [0] are falsy. *)
Definition jsTruthy (v : option Z) : bool :=
  match v with
  | None => false
  | Some n => negb (n =? 0)
  end.

(** [obj[key] < n]; only evaluated on a truthy operand in the source. *)
Definition jsLessThan (v : option Z) (n : Z) : bool :=
  match v with
  | None => false
  | Some x => x <? n
  end.

(** [String.prototype.toLowerCase] for text in ASCII and in scripts without
    letter case, such as Thai ([asciiOrThai]): the letters A to Z are lowered
    and every other byte is left as it is.  Cased letters outside ASCII are
    not lowered here. *)
Definition lowerChar (c : Ascii.ascii) : Ascii.ascii :=
  let n := Ascii.nat_of_ascii c in
  if ((65 <=? n) && (n <=? 90))%nat then Ascii.ascii_of_nat (n + 32) else c.

Fixpoint toLowerCase (s : string) : string :=
  match s with
  | EmptyString => EmptyString
  | String c rest => String (lowerChar c) (toLowerCase rest)
  end.

(** Text made of ASCII characters and characters of the Thai block (U+0E00 to
    U+0E7F, in UTF-8 the byte 224, then 184 or 185, then a byte from 128 to
    191).  On such text [toLowerCase] above is [String.prototype.toLowerCase],
    and one text occurs in another as bytes exactly when it does as a
    JavaScript string. *)
Fixpoint asciiOrThai (s : string) : bool :=
  match s with
  | EmptyString => true
  | String c rest =>
      if (Ascii.nat_of_ascii c <? 128)%nat then asciiOrThai rest
      else
        match rest with
        | String c2 (String c3 rest') =>
            (Ascii.nat_of_ascii c =? 224)%nat &&
            ((Ascii.nat_of_ascii c2 =? 184)%nat || (Ascii.nat_of_ascii c2 =? 185)%nat) &&
            (128 <=? Ascii.nat_of_ascii c3)%nat && (Ascii.nat_of_ascii c3 <=? 191)%nat &&
            asciiOrThai rest'
        | _ => false
        end
  end.

(** The stored names of a profile are such text. *)
Definition plainNames (user : UserProfile) : Prop :=
  Forall (λ m, asciiOrThai (name m)) (medicines user).

(** [s.includes(t)]: [t] occurs in [s] as a contiguous substring. *)
Fixpoint includes (s t : string) : bool :=
  String.prefix t s ||
  match s with
  | EmptyString => false
  | String _ rest => includes rest t
  end.

(** The predicate of [find]/[findIndex] in refill, delete and take-by-name:
    [m.name.toLowerCase().includes(medicineName.toLowerCase())]. *)
Definition nameMatches (medicineName : string) (m : Medicine) : bool :=
  includes (toLowerCase (name m)) (toLowerCase medicineName).

(** ** Medicine functions *)

Definition addMedicine (userId medName : string) (total perDose slot : Z)
  : M Medicine :=
  let* user := getUser userId in
  let* now := dateNow in
  let medicine :=
    mkMedicine ("med_" +:+ pretty now) medName total total perDose slot now in
  let user := set_medicines (medicines user ++ [medicine]) user in
  do saveUser userId user then
  ret medicine.

Record LowStockAlert := mkAlert {
  alertMedicine : Medicine;
  alertNumber : Z
}.

Inductive OpResult :=
  | Failure (message : string)
  | Success (medicine : Medicine) (lowStockAlert : option LowStockAlert).

(** The low-stock block of [takeMedicine]: given the medicine after the
    decrement and the user's ledger, the alert raised and the new ledger. *)
Definition lowStockCheck (medicine : Medicine) (alertKey : string)
    (alerted : gmap string Z) : option LowStockAlert * gmap string Z :=
  if (remainingPills medicine <=? 5) &&
     (negb (jsTruthy (alerted !! alertKey)) || jsLessThan (alerted !! alertKey) 2)
  then (Some (mkAlert medicine 2), <[alertKey := 2]> alerted)
  else if (remainingPills medicine <=? 10) && (5 <? remainingPills medicine) &&
          negb (jsTruthy (alerted !! alertKey))
  then (Some (mkAlert medicine 1), <[alertKey := 1]> alerted)
  else (None, alerted).

Definition takeMedicine (userId medicineId : string) : M OpResult :=
  let* user := getUser userId in
  match list_find (λ m, id m = medicineId) (medicines user) with
  | None => ret (Failure "ไม่พบยาที่ระบุ")
  | Some (i, medicine) =>
      if remainingPills medicine <? pillsPerDose medicine then
        ret (Failure ("❌ ยา " +:+ name medicine +:+ " หมดแล้ว!"))
      else
        let medicine :=
          set_remainingPills (remainingPills medicine - pillsPerDose medicine) medicine in
        let user := set_medicines (<[i := medicine]> (medicines user)) user in
        let '(lowStockAlert, alerted) :=
          lowStockCheck medicine medicineId (alertedMedicines user) in
        let user := set_alertedMedicines alerted user in
        do saveUser userId user then
        ret (Success medicine lowStockAlert)
  end.

(** [if (user.alertedMedicines && user.alertedMedicines[key])
      delete user.alertedMedicines[key]] *)
Definition clearAlert (key : string) (user : UserProfile) : UserProfile :=
  if jsTruthy (alertedMedicines user !! key)
  then set_alertedMedicines (delete key (alertedMedicines user)) user
  else user.

Definition refillMedicine (userId medicineName : string) (amount : Z) : M OpResult :=
  let* user := getUser userId in
  match list_find (λ m, nameMatches medicineName m) (medicines user) with
  | None => ret (Failure "ไม่พบยาที่ระบุ")
  | Some (i, medicine) =>
      let medicine := set_remainingPills (remainingPills medicine + amount) medicine in
      let user := set_medicines (<[i := medicine]> (medicines user)) user in
      let user := clearAlert (id medicine) user in
      do saveUser userId user then
      ret (Success medicine None)
  end.

Definition setTime (userId : string) (slot : Z) (time : string) : M Settings :=
  let* user := getUser userId in
  let user :=
    if slot =? 1
    then set_settings (mkSettings time (time2 (settings user))) user
    else set_settings (mkSettings (time1 (settings user)) time) user in
  do saveUser userId user then
  ret (settings user).

Definition deleteMedicine (userId medicineName : string) : M OpResult :=
  let* user := getUser userId in
  match list_find (λ m, nameMatches medicineName m) (medicines user) with
  | None => ret (Failure "ไม่พบยาที่ระบุ")
  | Some (index, deleted) =>
      let user := set_medicines (delete index (medicines user)) user in
      let user := clearAlert (id deleted) user in
      do saveUser userId user then
      ret (Success deleted None)
  end.

(** ** Wall-clock helpers of the handlers *)

(** [getThaiDate().getHours()]: Asia/Bangkok is UTC+7 all year. *)
Definition thaiHour : M Z := λ w, ((clock w / 3600000 + 7) mod 24, w).

Definition digitValue (c : Ascii.ascii) : option Z :=
  let n := Ascii.nat_of_ascii c in
  if ((48 <=? n) && (n <=? 57))%nat then Some (Z.of_nat n - 48) else None.

Fixpoint parseDigits (acc : option Z) (s : string) : option Z :=
  match s with
  | EmptyString => acc
  | String c rest =>
      match digitValue c with
      | Some d => parseDigits (Some (10 * default 0 acc + d)) rest
      | None => acc
      end
  end.

(** [parseInt] on a string that starts with a decimal digit or with no number
    at all (the shapes the settings hold): the longest run of leading digits,
    [None] for [NaN]. *)
Definition parseInt (s : string) : option Z := parseDigits None s.

(** [time.split(':')[0]] *)
Fixpoint beforeColon (s : string) : string :=
  match s with
  | EmptyString => EmptyString
  | String c rest =>
      if (Ascii.nat_of_ascii c =? 58)%nat (* ':' *) then EmptyString
      else String c (beforeColon rest)
  end.

Definition hourOf (time : string) : option Z := parseInt (beforeColon time).

(** [Math.abs(currentHour - timeHour) <= 2]; a comparison with [NaN] is false. *)
Definition withinTwoHours (currentHour : Z) (timeHour : option Z) : bool :=
  match timeHour with
  | Some h => Z.abs (currentHour - h) <=? 2
  | None => false
  end.

(** The [if / else if] that infers the slot from the clock in both handlers. *)
Definition slotFromClock (currentHour : Z) (s : Settings) : option Z :=
  if withinTwoHours currentHour (hourOf (time1 s)) then Some 1
  else if withinTwoHours currentHour (hourOf (time2 s)) then Some 2
  else None.

(** ** Replies

    The text of a reply is built from the values below by string templates;
    the constructors keep exactly the values each template prints. *)

Inductive Reply :=
  | ReplyGreeting
  | ReplyWhichMedicine
  | ReplyNothingToTake (slot : Z)
  | ReplyTaken (taken : list Medicine) (alerts : list LowStockAlert)
  | ReplyTakenOne (medicine : Medicine) (alert : option LowStockAlert)
  | ReplyNotFound (medicineName : string)
  | ReplyMessage (message : string)
  | ReplyAdded (medicine : Medicine) (timeDisplay : string)
  | ReplyTimeSet (slot : Z) (timeStr : string) (s : Settings)
  | ReplyRefilled (medicine : Medicine) (amount : Z)
  | ReplyDeleted (medicine : Medicine)
  | ReplyView (user : UserProfile).

(** ** Slot-wide dose recording *)

(** The [for (const med of medicinesToTake)] loop with its two accumulators:
    the medicines printed in [resultMessage] and [lowStockAlerts]. *)
Fixpoint takeLoop (userId : string) (meds : list Medicine)
    (taken : list Medicine) (lowStockAlerts : list LowStockAlert)
  : M (list Medicine * list LowStockAlert) :=
  match meds with
  | [] => ret (taken, lowStockAlerts)
  | med :: rest =>
      let* result := takeMedicine userId (id med) in
      match result with
      | Success medicine lowStockAlert =>
          takeLoop userId rest (taken ++ [medicine])
                   (lowStockAlerts ++ option_list lowStockAlert)
      | Failure _ => takeLoop userId rest taken lowStockAlerts
      end
  end.

Definition processTakeMedicine (userId : string) (user : UserProfile) (slot : Z)
  : M Reply :=
  let medicinesToTake :=
    filter (λ m, timeSlot m = slot ∧ 0 < remainingPills m) (medicines user) in
  match medicinesToTake with
  | [] => ret (ReplyNothingToTake slot)
  | _ :: _ =>
      let* collected := takeLoop userId medicinesToTake [] [] in
      do pendingDelete userId then
      ret (ReplyTaken collected.1 collected.2)
  end.

(** ** Handlers *)

Definition handleStickerMessage (userId : string) (user : UserProfile) : M Reply :=
  let* pending := getPendingReminder userId in
  match pending with
  | None =>
      let* currentHour := thaiHour in
      match slotFromClock currentHour (settings user) with
      | None => ret ReplyGreeting
      | Some currentSlot => processTakeMedicine userId user currentSlot
      end
  | Some p => processTakeMedicine userId user (pendingSlot p)
  end.

(** The text commands, as the regular expressions of [handleTextMessage]
    deliver them: numbers are the [parseInt] of [\d+] captures. *)
Inductive Command :=
  | CmdList
  | CmdAdd (medName : string) (total perDose slot : Z)
  | CmdSetTime (slot : Z) (hour minute : string)
  | CmdTaken
  | CmdTakeSlot (slot : Z)
  | CmdTakeName (medicineName : string)
  | CmdRefill (medicineName : string) (amount : Z)
  | CmdDelete (medicineName : string)
  | CmdSummary
  | CmdShowTime
  | CmdHelp
  | CmdOther.

(** [s.padStart(2, '0')] *)
Definition padStart2 (s : string) : string :=
  match String.length s with
  | 0%nat => "00"
  | 1%nat => "0" +:+ s
  | _ => s
  end.

(** [handleTextMessage] after the regular expression that matched.  In the
    [CmdTaken] branch the first [currentSlot] is [pending?.timeSlot || null]. *)
Definition handleTextMessage (cmd : Command) (userId : string) (user : UserProfile)
  : M Reply :=
  match cmd with
  | CmdAdd medName total perDose slot =>
      let* medicine := addMedicine userId medName total perDose slot in
      let* updatedUser := getUser userId in
      let timeDisplay :=
        if slot =? 1 then time1 (settings updatedUser)
        else time2 (settings updatedUser) in
      ret (ReplyAdded medicine timeDisplay)
  | CmdSetTime slot hour minute =>
      let timeStr := padStart2 hour +:+ ":" +:+ minute in
      let* _s := setTime userId slot timeStr in
      let* updatedUser := getUser userId in
      ret (ReplyTimeSet slot timeStr (settings updatedUser))
  | CmdTaken =>
      let* pending := getPendingReminder userId in
      let* currentHour := thaiHour in
      let currentSlot :=
        match pending with
        | Some p => if pendingSlot p =? 0 then None else Some (pendingSlot p)
        | None => None
        end in
      let currentSlot :=
        match currentSlot with
        | None => slotFromClock currentHour (settings user)
        | Some s => Some s
        end in
      match currentSlot with
      | None => ret ReplyWhichMedicine
      | Some s => processTakeMedicine userId user s
      end
  | CmdTakeSlot slot => processTakeMedicine userId user slot
  | CmdTakeName medicineName =>
      match list_find (λ m, nameMatches medicineName m) (medicines user) with
      | None => ret (ReplyNotFound medicineName)
      | Some (_, medicine) =>
          let* result := takeMedicine userId (id medicine) in
          match result with
          | Failure message => ret (ReplyMessage message)
          | Success medicine lowStockAlert => ret (ReplyTakenOne medicine lowStockAlert)
          end
      end
  | CmdRefill medicineName amount =>
      let* result := refillMedicine userId medicineName amount in
      match result with
      | Failure message => ret (ReplyMessage message)
      | Success medicine _ => ret (ReplyRefilled medicine amount)
      end
  | CmdDelete medicineName =>
      let* result := deleteMedicine userId medicineName in
      match result with
      | Failure message => ret (ReplyMessage message)
      | Success medicine _ => ret (ReplyDeleted medicine)
      end
  | CmdList | CmdSummary | CmdShowTime | CmdHelp | CmdOther => ret (ReplyView user)
  end.

(** A webhook event by [event.type] and, for type 'message', by
    [event.message.type]: a sticker, a text, or another kind of message (an
    image, a location); [OtherEvent] is an event of any other type (follow,
    unfollow, postback). *)
Inductive Event :=
  | StickerMessage
  | TextMessage (cmd : Command)
  | OtherMessage
  | OtherEvent.

(** [handleEvent]; [userId] is [event.source.userId], which is read after the
    check of [event.type]. *)
Definition handleEvent (userId : string) (event : Event) : M (option Reply) :=
  match event with
  | OtherEvent => ret None
  | _ =>
      let* user := getUser userId in
      match event with
      | StickerMessage =>
          let* r := handleStickerMessage userId user in ret (Some r)
      | TextMessage cmd =>
          let* r := handleTextMessage cmd userId user in ret (Some r)
      | OtherMessage | OtherEvent => ret None
      end
  end.

(** ** Scheduled reminders *)

(** ["HH:MM"] of the Bangkok wall clock, as [sendReminders] formats it. *)
Definition currentTime : M string := λ w,
  let hours := (clock w / 3600000 + 7) mod 24 in
  let minutes := (clock w / 60000) mod 60 in
  (padStart2 (pretty hours) +:+ ":" +:+ padStart2 (pretty minutes), w).

(** [client.pushMessage(userId, ...)]: consumes the next outcome scheduled
    for this recipient and tells whether the call threw.  With no outcome
    scheduled the call succeeds. *)
Definition pushMessage (userId : string) : M bool := λ w,
  match pushFaults w !! userId with
  | Some (failed :: rest) => (failed, withPushFaults (<[userId := rest]> (pushFaults w)) w)
  | _ => (false, w)
  end.

(** Body of the loop of [sendReminders] for one entry of the data.  The
    reminder is armed inside the [try], after the push: a push that throws
    leaves the user unarmed and is logged by the [catch]. *)
Definition remindUser (slot : Z) (entry : string * UserProfile) : M unit :=
  let '(userId, user) := entry in
  let targetTime :=
    if slot =? 1 then time1 (settings user) else time2 (settings user) in
  let* now := currentTime in
  if decide (now = targetTime) then
    match filter (λ m, timeSlot m = slot ∧ 0 < remainingPills m) (medicines user) with
    | [] => ret tt
    | _ :: _ =>
        let* failed := pushMessage userId in
        if failed then
          consoleError ("❌ Failed to send reminder to " +:+ userId +:+ ":")
        else setPendingReminder userId slot
    end
  else ret tt.

Fixpoint forEach {A} (body : A → M unit) (items : list A) : M unit :=
  match items with
  | [] => ret tt
  | item :: rest => do body item then forEach body rest
  end.

(** [Object.entries(data)] is taken in the order of [map_to_list]; the body
    for one user touches that user's reminder and push outcomes only. *)
Definition sendReminders (slot : Z) : M unit :=
  let* data := loadData in
  forEach (remindUser slot) (map_to_list data).

(** The per-minute cron job. *)
Definition cronTick : M unit :=
  do sendReminders 1 then sendReminders 2.

(** * Vocabulary of the statements *)

(** Outcome of the [n]-th coming Redis call. *)
Definition callFails (n : nat) (w : World) : bool :=
  default false (redisFaults w !! n).

(** Outcome of the next [pushMessage] call to [userId]. *)
Definition pushFails (userId : string) (w : World) : bool :=
  match pushFaults w !! userId with
  | Some (failed :: _) => failed
  | _ => false
  end.

(** The ledger only ever receives the levels 1 and 2. *)
Definition ledger_wf (alerted : gmap string Z) : Prop :=
  map_Forall (λ _ level, level = 1 ∨ level = 2) alerted.

(** One dose taken out of the stock of [m]. *)
Definition doseTaken (m : Medicine) : Medicine :=
  set_remainingPills (remainingPills m - pillsPerDose m) m.

(** The stock check of [takeMedicine] passes. *)
Definition hasDose (m : Medicine) : Prop := pillsPerDose m ≤ remainingPills m.

Global Instance hasDose_dec m : Decision (hasDose m).
Proof. unfold hasDose. apply _. Defined.

(** The alert that a dose of [m] raises under the ledger [alerted], and the
    ledger after the doses of [ms] in order. *)
Definition alertFor (alerted : gmap string Z) (m : Medicine) : option LowStockAlert :=
  (lowStockCheck (doseTaken m) (id m) alerted).1.

Definition ledgerAfter (alerted : gmap string Z) (ms : list Medicine) : gmap string Z :=
  foldl (λ ledger m, (lowStockCheck (doseTaken m) (id m) ledger).2) alerted ms.

(** The stored list after the medicines with an identifier in [ids] took a dose. *)
Definition doseOf (ids : list string) (m : Medicine) : Medicine :=
  if decide (id m ∈ ids) then doseTaken m else m.

(** The four operations on the stock, with the arguments the text handler
    passes: [total], [perDose] and [amount] are [parseInt] of [\d+] captures. *)
Inductive Operation :=
  | OpAdd (userId medName : string) (total perDose slot : Z)
  | OpTake (userId medicineId : string)
  | OpRefill (userId medicineName : string) (amount : Z)
  | OpDelete (userId medicineName : string).

Definition runOperation (op : Operation) : M unit :=
  match op with
  | OpAdd userId medName total perDose slot =>
      do addMedicine userId medName total perDose slot then ret tt
  | OpTake userId medicineId => do takeMedicine userId medicineId then ret tt
  | OpRefill userId medicineName amount =>
      do refillMedicine userId medicineName amount then ret tt
  | OpDelete userId medicineName => do deleteMedicine userId medicineName then ret tt
  end.

Definition runOperations (ops : list Operation) (w : World) : World :=
  foldl (λ w op, exec (runOperation op) w) w ops.

(** A capture of [\d+] is never negative. *)
Definition fromDigits (op : Operation) : Prop :=
  match op with
  | OpAdd _ _ total perDose _ => 0 ≤ total ∧ 0 ≤ perDose
  | OpRefill _ _ amount => 0 ≤ amount
  | OpTake _ _ | OpDelete _ _ => True
  end.

(** [P] holds of every profile in the store. *)
Definition everyProfile (P : UserProfile → Prop) (w : World) : Prop :=
  map_Forall (λ _ user, P user) (default ∅ (redisData w)).

Definition stockOk (user : UserProfile) : Prop :=
  Forall (λ m, 0 ≤ remainingPills m) (medicines user).

Definition stockNonNegative (w : World) : Prop := everyProfile stockOk w.

Definition ledgerOk (user : UserProfile) : Prop := ledger_wf (alertedMedicines user).

Definition ledgersWellFormed (w : World) : Prop := everyProfile ledgerOk w.

(** * Scenarios

    Concrete runs the statements are tried on.  Times are milliseconds since
    midnight UTC; 08:00 in Bangkok is 01:00 UTC. *)

Definition at0800 : Z := 1 * 3600000.
Definition at0805 : Z := at0800 + 5 * 60 * 1000.
Definition at0806 : Z := at0800 + 6 * 60 * 1000.
Definition at0810 : Z := at0800 + 10 * 60 * 1000.
Definition at0830 : Z := at0800 + 30 * 60 * 1000.

(** One user, two medicines, reminders at 08:00 and 08:10: both have been
    sent. *)
Definition twoReminders : World :=
  let w := exec (handleEvent "U1" (TextMessage (CmdAdd "Para" 30 2 1))) emptyWorld in
  let w := exec (handleEvent "U1" (TextMessage (CmdAdd "Ibu" 30 1 2))) (advanceTo 5 w) in
  let w := exec (handleEvent "U1" (TextMessage (CmdSetTime 2 "8" "10"))) (advanceTo 9 w) in
  let w := exec cronTick (advanceTo at0800 w) in
  exec cronTick (advanceTo at0810 w).

(** Two users in the store. *)
Definition twoUsers : World :=
  let w := exec (handleEvent "U1" (TextMessage (CmdAdd "Para" 30 2 1))) emptyWorld in
  exec (handleEvent "U2" (TextMessage (CmdAdd "Ibu" 30 1 2))) (advanceTo 5 w).

(** A user whose only medicine has twelve pills left, two per dose. *)
Definition para (remaining : Z) : Medicine :=
  mkMedicine "med_0" "Para" 12 remaining 2 1 0.

Definition twelveLeft : World :=
  exec (handleEvent "U1" (TextMessage (CmdAdd "Para" 12 2 1))) emptyWorld.

(** The same user at 09:00 in Bangkok with the times 08:00 and 10:00; no
    reminder is pending. *)
Definition nineOClock : World :=
  let w := exec (handleEvent "U1" (TextMessage (CmdSetTime 2 "10" "00"))) twelveLeft in
  advanceTo (2 * 3600000) w.

(** A user with two medicines whose names both contain "para". *)
Definition paracetamol : Medicine := mkMedicine "med_0" "Paracetamol" 30 30 2 1 0.
Definition paraForte : Medicine := mkMedicine "med_5" "Para Forte" 20 20 1 2 5.

Definition twoParas : World :=
  let w := exec (handleEvent "U1" (TextMessage (CmdAdd "Paracetamol" 30 2 1))) emptyWorld in
  exec (handleEvent "U1" (TextMessage (CmdAdd "Para Forte" 20 1 2))) (advanceTo 5 w).

(** A cabinet of four medicines: a full one, one with less than a dose and an
    empty one in slot 1, and one of slot 2. *)
Definition cabinetUser : UserProfile :=
  mkUser [ mkMedicine "med_0" "Para" 12 12 2 1 0;
           mkMedicine "med_1" "Ibu" 1 1 2 1 1;
           mkMedicine "med_2" "Zinc" 0 0 1 1 2;
           mkMedicine "med_3" "Iron" 30 30 1 2 3 ]
         (mkSettings "08:00" "20:00") ∅.

Definition cabinet : World :=
  let w := exec (handleEvent "U1" (TextMessage (CmdAdd "Para" 12 2 1))) emptyWorld in
  let w := exec (handleEvent "U1" (TextMessage (CmdAdd "Ibu" 1 2 1))) (advanceTo 1 w) in
  let w := exec (handleEvent "U1" (TextMessage (CmdAdd "Zinc" 0 1 1))) (advanceTo 2 w) in
  exec (handleEvent "U1" (TextMessage (CmdAdd "Iron" 30 1 2))) (advanceTo 3 w).

(** The reminder of 08:00 is pending and the last dose of the only slot-1
    medicine is then taken by name; it is 08:06. *)
Definition lastDoseTakenByName : World :=
  let w := exec (handleEvent "U1" (TextMessage (CmdAdd "Para" 2 2 1))) emptyWorld in
  let w := exec cronTick (advanceTo at0800 w) in
  let w := exec (handleEvent "U1" (TextMessage (CmdTakeName "para"))) (advanceTo at0805 w) in
  advanceTo at0806 w.

(** The reminder of 08:00 is pending for a medicine that holds less than a
    dose; it is 08:06. *)
Definition lessThanADose : World :=
  let w := exec (handleEvent "U1" (TextMessage (CmdAdd "Ibu" 1 2 1))) emptyWorld in
  let w := exec cronTick (advanceTo at0800 w) in
  advanceTo at0806 w.

(** * Further functions and vocabulary *)

(** The part of the world the reminder tracker owns, and the part the store
    functions own. *)
Definition trackerOf (w : World) : gmap string PendingAck * list (Z * string) * Z :=
  (pendingReminders w, timers w, clock w).

Definition storeOf (w : World)
  : option (gmap string UserProfile) * list bool * list string :=
  (redisData w, redisFaults w, consoleErrors w).

Definition keepsTracker {A} (m : M A) : Prop :=
  ∀ w, trackerOf (exec m w) = trackerOf w.

(** The stored profile of a user, if any. *)
Definition profileOf (userId : string) (w : World) : option UserProfile :=
  default ∅ (redisData w) !! userId.

(** [Number.MAX_SAFE_INTEGER]: the integers up to it, and their sums and
    differences that stay within it, are exact in the program's arithmetic. *)
Definition MAX_SAFE_INTEGER : Z := 2 ^ 53 - 1.

(** [n] calls of [takeMedicine] for the same medicine, results in order. *)
Fixpoint takeTimes (n : nat) (userId medicineId : string) : M (list OpResult) :=
  match n with
  | O => ret []
  | S k =>
      let* result := takeMedicine userId medicineId in
      let* results := takeTimes k userId medicineId in
      ret (result :: results)
  end.

Definition isSuccess (result : OpResult) : bool :=
  match result with
  | Success _ _ => true
  | Failure _ => false
  end.

(** The numbers of the alerts raised in a list of results, in order. *)
Definition alertNumbers (results : list OpResult) : list Z :=
  omap (λ result, match result with
                  | Success _ (Some alert) => Some (alertNumber alert)
                  | _ => None
                  end) results.

(** The test of [sendReminders] for one user: the clock reads the time of the
    slot and a medicine of the slot has stock. *)
Definition reminderDue (slot : Z) (now : string) (user : UserProfile) : Prop :=
  now = (if slot =? 1 then time1 (settings user) else time2 (settings user)) ∧
  filter (λ m, timeSlot m = slot ∧ 0 < remainingPills m) (medicines user) ≠ [].

Global Instance reminderDue_dec slot now user : Decision (reminderDue slot now user).
Proof. unfold reminderDue. apply _. Defined.

(** The line that the [catch] of [sendReminders] logs for a push that threw. *)
Definition failedPushLine (userId : string) : string :=
  "❌ Failed to send reminder to " +:+ userId +:+ ":".

(** Every medicine carries the identifier [addMedicine] builds from the
    instant of its creation. *)
Definition idsFromClock (user : UserProfile) : Prop :=
  Forall (λ m, id m = "med_" +:+ pretty (createdAt m)) (medicines user).

(** A string of decimal digits. *)
Fixpoint allDigits (s : string) : bool :=
  match s with
  | EmptyString => true
  | String c rest => bool_decide (is_Some (digitValue c)) && allDigits rest
  end.

(** ** The daily summary *)






(** ** Further scenarios *)

(** The two users at 08:00, when the reminder of slot 1 is due for U1. *)
Definition twoUsersAt0800 : World := advanceTo at0800 twoUsers.

(** * Properties *)

(** ** Steps of the monad and of the store *)

Lemma exec_bind {A B} (m : M A) (k : A → M B) w :
  exec (bind m k) w = exec (k (eval m w)) (exec m w).
Proof. unfold exec, eval, bind. by destruct (m w). Qed.

Lemma eval_bind {A B} (m : M A) (k : A → M B) w :
  eval (bind m k) w = eval (k (eval m w)) (exec m w).
Proof. unfold exec, eval, bind. by destruct (m w). Qed.

Lemma redisFaults_withData d w : redisFaults (withData d w) = redisFaults w.
Proof. reflexivity. Qed.

Lemma redisData_withData d w : redisData (withData d w) = d.
Proof. reflexivity. Qed.

Lemma withData_withData d d' w : withData d (withData d' w) = withData d w.
Proof. reflexivity. Qed.

Lemma withData_same w : withData (redisData w) w = w.
Proof. by destruct w. Qed.

(** When no Redis call fails. *)

Lemma loadData_ok w :
  redisFaults w = [] → loadData w = (default ∅ (redisData w), w).
Proof. intros Hf. unfold loadData, bind, redisCall. by rewrite Hf. Qed.

Lemma saveData_ok data w :
  redisFaults w = [] → saveData data w = (tt, withData (Some data) w).
Proof. intros Hf. unfold saveData, bind, redisCall. by rewrite Hf. Qed.

Lemma getUser_found w data userId user :
  redisFaults w = [] → redisData w = Some data → data !! userId = Some user →
  getUser userId w = (user, w).
Proof.
  intros Hf Hd Hu. unfold getUser, bind. rewrite (loadData_ok w Hf), Hd. simpl.
  by rewrite Hu.
Qed.

Lemma getUser_fresh w userId :
  redisFaults w = [] → default ∅ (redisData w) !! userId = None →
  getUser userId w =
    (defaultUser, withData (Some (<[userId := defaultUser]> (default ∅ (redisData w)))) w).
Proof.
  intros Hf Hu. unfold getUser, bind. rewrite (loadData_ok w Hf), Hu.
  by rewrite (saveData_ok _ w Hf).
Qed.

Lemma saveUser_ok w userId userData :
  redisFaults w = [] →
  saveUser userId userData w =
    (tt, withData (Some (<[userId := userData]> (default ∅ (redisData w)))) w).
Proof.
  intros Hf. unfold saveUser, bind. rewrite (loadData_ok w Hf).
  by rewrite (saveData_ok _ w Hf).
Qed.

(** Whatever the outcome of the calls. *)

Lemma loadData_cases w :
  loadData w =
    (if callFails 0 w then ∅ else default ∅ (redisData w),
     withErrors (consoleErrors w ++ if callFails 0 w then ["Error loading data:"] else [])
                (withFaults (drop 1 (redisFaults w)) w)).
Proof.
  unfold loadData, bind, redisCall, callFails. destruct w as [d [|[] f] e c p t]; simpl;
    unfold withErrors, withFaults; simpl; by rewrite ?app_nil_r.
Qed.

Lemma saveData_cases data w :
  saveData data w =
    (tt,
     withData (if callFails 0 w then redisData w else Some data)
       (withErrors (consoleErrors w ++ if callFails 0 w then ["Error saving data:"] else [])
                   (withFaults (drop 1 (redisFaults w)) w))).
Proof.
  unfold saveData, bind, redisCall, callFails. destruct w as [d [|[] f] e c p t]; simpl;
    unfold withErrors, withFaults, withData; simpl; by rewrite ?app_nil_r.
Qed.

(** A property of profiles that the default profile has is kept by the store
    functions, whichever calls fail. *)

Section profile_invariant.
Variable P : UserProfile → Prop.
Hypothesis P_default : P defaultUser.

Lemma loadData_every w :
  everyProfile P w →
  map_Forall (λ _ user, P user) (eval loadData w) ∧ everyProfile P (exec loadData w).
Proof.
  intros Hok. unfold eval, exec. rewrite loadData_cases. simpl. split; [| done].
  destruct (callFails 0 w); [apply map_Forall_empty | done].
Qed.

Lemma saveData_every data w :
  map_Forall (λ _ user, P user) data →
  everyProfile P w → everyProfile P (exec (saveData data) w).
Proof.
  intros Hdata Hok. unfold exec. rewrite saveData_cases. unfold everyProfile. simpl.
  by destruct (callFails 0 w).
Qed.

Lemma saveUser_every userId user w :
  P user → everyProfile P w → everyProfile P (exec (saveUser userId user) w).
Proof.
  intros Huser Hok. unfold saveUser. rewrite exec_bind.
  destruct (loadData_every w Hok) as [Hdata Hok1].
  apply saveData_every; [| done]. by apply map_Forall_insert_2.
Qed.

Lemma getUser_every userId w :
  everyProfile P w →
  P (eval (getUser userId) w) ∧ everyProfile P (exec (getUser userId) w).
Proof.
  intros Hok. unfold getUser. rewrite exec_bind, eval_bind.
  destruct (loadData_every w Hok) as [Hdata Hok1].
  destruct (eval loadData w !! userId) as [user|] eqn:Hu.
  - split; [| done]. by apply (Hdata userId user).
  - rewrite exec_bind, eval_bind. split; [done |].
    apply saveData_every; [| done]. by apply map_Forall_insert_2.
Qed.
End profile_invariant.

(** ** Store failures *)

(** C9, as the code has it.  A failing Redis call is logged and swallowed:
    [loadData] then answers with the empty data set, [saveData] leaves the
    store alone, and the caller goes on either way.  So [saveUser] after a
    failed read still writes, and when that write succeeds the store holds the
    written profile and nothing else; [getUser] after a failed read answers
    with the default profile and writes it in the same way.  Only a failed
    write leaves the stored data as it was. *)
Theorem store_failure_logged_and_swallowed
    (w : World) (userId : string) (userData : UserProfile) :
  let readFailed := callFails 0 w in
  let writeFailed := callFails 1 w in
  let loaded := if readFailed then ∅ else default ∅ (redisData w) in
  let written := exec (saveUser userId userData) w in
  let fetched := exec (getUser userId) w in
  (eval loadData w = loaded ∧
   redisData (exec loadData w) = redisData w ∧
   consoleErrors (exec loadData w)
   = consoleErrors w ++ (if readFailed then ["Error loading data:"] else [])) ∧
  (redisData written
   = (if writeFailed then redisData w else Some (<[userId := userData]> loaded)) ∧
   consoleErrors written
   = consoleErrors w ++ (if readFailed then ["Error loading data:"] else [])
                     ++ (if writeFailed then ["Error saving data:"] else []) ∧
   redisFaults written = drop 2 (redisFaults w)) ∧
  (eval (getUser userId) w = default defaultUser (loaded !! userId) ∧
   redisData fetched
   = match loaded !! userId with
     | Some _ => redisData w
     | None => if writeFailed then redisData w
               else Some (<[userId := defaultUser]> loaded)
     end).
Proof.
  intros readFailed writeFailed loaded written fetched.
  split; [| split].
  - unfold eval, exec. by rewrite loadData_cases.
  - subst written loaded readFailed writeFailed.
    unfold exec, saveUser, bind. rewrite loadData_cases, saveData_cases.
    unfold callFails. destruct w as [d [|[] [|[] f]] e c p t]; simpl;
      rewrite ?app_nil_r, ?drop_0; repeat split; by rewrite <- ?app_assoc.
  - subst fetched loaded readFailed writeFailed.
    unfold eval, exec, getUser, bind. rewrite loadData_cases.
    cbn [fst snd].
    destruct ((if callFails 0 w then ∅ else default ∅ (redisData w)) !! userId)
      as [user|] eqn:Hu; [done |].
    rewrite saveData_cases. simpl. split; [done |].
    unfold callFails. by destruct w as [d [|[] [|[] f]] e c p t].
Qed.

(** C9 as stated fails: with the read failing, the write is still made and
    the profile of another user disappears from the store. *)
Lemma failed_read_overwrites_store :
  let w := withFaults [true] twoUsers in
  let w' := exec (handleEvent "U1" (TextMessage (CmdRefill "Para" 10))) w in
  callFails 0 w = true ∧
  (∃ profile, redisData w ≫= (.!! "U2") = Some profile) ∧
  redisData w' ≫= (.!! "U2") = None ∧
  redisData w' = Some {[ "U1" := defaultUser ]} ∧
  redisData w' ≠ redisData w.
Proof.
  split; [by vm_compute |].
  split; [eexists; by vm_compute |].
  split; [by vm_compute |].
  split; [by vm_compute |].
  intros Heq. apply (f_equal (λ d, d ≫= (.!! "U2"))) in Heq.
  vm_compute in Heq. discriminate.
Qed.

(** ** Pending-reminder tracker *)

Lemma setPendingReminder_lookup w userId slot :
  pendingReminders (exec (setPendingReminder userId slot) w) !! userId
  = Some (mkPending slot (clock w)).
Proof. unfold exec, setPendingReminder. simpl. apply lookup_insert_eq. Qed.

Lemma setPendingReminder_other w userId slot other :
  other ≠ userId →
  pendingReminders (exec (setPendingReminder userId slot) w) !! other
  = pendingReminders w !! other.
Proof. intros Hne. unfold exec, setPendingReminder. simpl. by apply lookup_insert_ne. Qed.

Lemma setPendingReminder_timer w userId slot :
  timers (exec (setPendingReminder userId slot) w)
  = timers w ++ [(clock w + THIRTY_MINUTES, userId)].
Proof. reflexivity. Qed.

(** The arming itself is as described: the entry holds the slot and the
    current time and replaces what was there; one more callback is queued for
    thirty minutes later. *)
Lemma setPendingReminder_records w userId slot :
  let w' := exec (setPendingReminder userId slot) w in
  pendingReminders w' = <[userId := mkPending slot (clock w)]> (pendingReminders w) ∧
  timers w' = timers w ++ [(clock w + 30 * 60 * 1000, userId)] ∧
  redisData w' = redisData w ∧ clock w' = clock w.
Proof. done. Qed.

Lemma fireTimers_lookup due p userId :
  fireTimers due p !! userId =
    if decide (userId ∈ due.*2) then None else p !! userId.
Proof.
  unfold fireTimers. revert p. induction due as [|[d u] due IH]; intros p; simpl.
  - done.
  - rewrite IH. change (list_fmap _ _ snd due) with (due.*2).
    destruct (decide (userId = u)) as [->|Hne].
    + rewrite lookup_delete_eq. rewrite (decide_True (P := u ∈ u :: _)) by set_solver.
      by case_decide.
    + rewrite lookup_delete_ne by done.
      destruct (decide (userId ∈ due.*2)).
      * by rewrite decide_True by set_solver.
      * by rewrite decide_False by set_solver.
Qed.

Lemma getPendingReminder_fresh w userId p :
  pendingReminders w !! userId = Some p →
  clock w - timestamp p ≤ THIRTY_MINUTES →
  getPendingReminder userId w = (Some p, w).
Proof.
  intros Hp Hle. unfold getPendingReminder. rewrite Hp.
  destruct (Z.ltb_spec THIRTY_MINUTES (clock w - timestamp p)); [lia | done].
Qed.

Lemma getPendingReminder_stale w userId p :
  pendingReminders w !! userId = Some p →
  THIRTY_MINUTES < clock w - timestamp p →
  getPendingReminder userId w
  = (None, withPending (delete userId (pendingReminders w)) w).
Proof.
  intros Hp Hlt. unfold getPendingReminder. rewrite Hp.
  destruct (Z.ltb_spec THIRTY_MINUTES (clock w - timestamp p)); [done | lia].
Qed.

Lemma getPendingReminder_absent w userId :
  pendingReminders w !! userId = None →
  getPendingReminder userId w = (None, w).
Proof. intros Hp. unfold getPendingReminder. by rewrite Hp. Qed.


(** After a reminder is armed at [T] and nothing else touches the user's
    entry, a reply 29 minutes later still finds it, provided no callback of an
    earlier reminder of that user is still queued. *)
Lemma armed_resolvable_at_29 w userId slot :
  userId ∉ (timers w).*2 →
  eval (getPendingReminder userId)
       (advanceTo (clock w + 29 * 60 * 1000) (exec (setPendingReminder userId slot) w))
  = Some (mkPending slot (clock w)).
Proof.
  intros Hfresh. unfold eval.
  erewrite getPendingReminder_fresh; [done | | simpl; unfold THIRTY_MINUTES; lia].
  unfold advanceTo. simpl. rewrite fireTimers_lookup.
  rewrite decide_False.
  - apply lookup_insert_eq.
  - rewrite filter_app, fmap_app, elem_of_app. intros [Hin | Hin].
    + apply Hfresh. apply list_elem_of_fmap in Hin as [[d u] [-> Hin]].
      apply list_elem_of_filter in Hin as [_ Hin].
      apply list_elem_of_fmap. by exists (d, u).
    + rewrite filter_cons_False in Hin; [set_solver |].
      simpl. unfold THIRTY_MINUTES. lia.
Qed.

(** Thirty-one minutes after arming the entry is gone, whatever else is queued. *)
Lemma armed_gone_at_31 w userId slot :
  eval (getPendingReminder userId)
       (advanceTo (clock w + 31 * 60 * 1000) (exec (setPendingReminder userId slot) w))
  = None.
Proof.
  unfold eval. rewrite getPendingReminder_absent; [done |].
  unfold advanceTo. simpl. rewrite fireTimers_lookup.
  rewrite decide_True; [done |].
  rewrite filter_app, fmap_app, elem_of_app. right.
  rewrite filter_cons_True; [set_solver |].
  simpl. unfold THIRTY_MINUTES. lia.
Qed.

(** C2.  For a user with a stored entry, [getPendingReminder] returns the
    entry exactly when [now - timestamp <= 30 minutes] and leaves the map
    alone; when the entry is older it deletes it and returns nothing.  So an
    entry with timestamp [T] is returned at [T + 29 min] and not at
    [T + 31 min]. *)
Theorem getPendingReminder_thirty_minute_window
    (w : World) (userId : string) (p : PendingAck) :
  pendingReminders w !! userId = Some p →
  (eval (getPendingReminder userId) w = Some p
     ↔ clock w - timestamp p ≤ 30 * 60 * 1000) ∧
  (clock w - timestamp p ≤ 30 * 60 * 1000 →
     getPendingReminder userId w = (Some p, w)) ∧
  (30 * 60 * 1000 < clock w - timestamp p →
     getPendingReminder userId w
       = (None, withPending (delete userId (pendingReminders w)) w) ∧
     pendingReminders (exec (getPendingReminder userId) w) !! userId = None) ∧
  (clock w = timestamp p + 29 * 60 * 1000 →
     eval (getPendingReminder userId) w = Some p) ∧
  (clock w = timestamp p + 31 * 60 * 1000 →
     eval (getPendingReminder userId) w = None).
Proof.
  intros Hp.
  assert (Hfresh : clock w - timestamp p ≤ 30 * 60 * 1000 →
                   getPendingReminder userId w = (Some p, w))
    by (intros; apply getPendingReminder_fresh; [done | unfold THIRTY_MINUTES; lia]).
  assert (Hstale : 30 * 60 * 1000 < clock w - timestamp p →
                   getPendingReminder userId w
                   = (None, withPending (delete userId (pendingReminders w)) w))
    by (intros; apply (getPendingReminder_stale w userId p);
        [done | unfold THIRTY_MINUTES; lia]).
  repeat split.
  - intros Hsome.
    destruct (Z.le_gt_cases (clock w - timestamp p) (30 * 60 * 1000)) as [|Hgt]; [done |].
    unfold eval in Hsome. rewrite Hstale in Hsome by lia. discriminate.
  - intros Hle. unfold eval. by rewrite Hfresh.
  - done.
  - by apply Hstale.
  - unfold exec. rewrite Hstale by done. simpl. apply lookup_delete_eq.
  - intros Hc. unfold eval. rewrite Hfresh; [done | lia].
  - intros Hc. unfold eval. rewrite Hstale; [done | lia].
Qed.

Lemma getPendingReminder_thirty_minute_window_witness :
  let w := advanceTo (29 * 60 * 1000) (exec (setPendingReminder "U1" 1) emptyWorld) in
  pendingReminders w !! "U1" = Some (mkPending 1 0) ∧
  eval (getPendingReminder "U1") w = Some (mkPending 1 0).
Proof.
  split; [reflexivity |].
  apply (getPendingReminder_thirty_minute_window
           (advanceTo (29 * 60 * 1000) (exec (setPendingReminder "U1" 1) emptyWorld))
           "U1" (mkPending 1 0)); reflexivity.
Defined.

(** The mechanism in general: re-arming before the first callback is due
    leaves that callback queued, and when it runs it removes the newer entry
    before that entry is thirty minutes old. *)
Lemma earlier_timer_deletes_rearmed_entry w userId slot1 slot2 t1 :
  clock w < t1 < clock w + THIRTY_MINUTES →
  let w1 := exec (setPendingReminder userId slot1) w in
  let w2 := exec (setPendingReminder userId slot2) (advanceTo t1 w1) in
  let w3 := advanceTo (clock w + THIRTY_MINUTES) w2 in
  pendingReminders w2 !! userId = Some (mkPending slot2 t1) ∧
  clock w3 - t1 < THIRTY_MINUTES ∧
  pendingReminders w3 !! userId = None.
Proof.
  intros Ht w1 w2 w3. split; [apply setPendingReminder_lookup |].
  split; [simpl; lia |].
  unfold w3, advanceTo. simpl. rewrite fireTimers_lookup. rewrite decide_True; [done |].
  apply list_elem_of_fmap. exists (clock w + THIRTY_MINUTES, userId). split; [done |].
  apply list_elem_of_filter. split; [simpl; lia |].
  apply elem_of_app. left. apply list_elem_of_filter. split; [simpl; lia |].
  apply elem_of_app. right. by apply list_elem_of_singleton.
Qed.

(** C1.  The reminder of 08:00 arms slot 1, the reminder of 08:10 re-arms
    with slot 2.  At 08:30, twenty minutes after the second arming, the
    callback of the first one runs and deletes the second entry: a sticker
    sent then finds no pending entry and is attributed to slot 1 by the
    clock. *)
Theorem rearmed_entry_deleted_by_earlier_timer :
  pendingReminders twoReminders !! "U1" = Some (mkPending 2 at0810) ∧
  timers twoReminders = [(at0800 + THIRTY_MINUTES, "U1"); (at0810 + THIRTY_MINUTES, "U1")] ∧
  let later := advanceTo at0830 twoReminders in
  clock later - at0810 < THIRTY_MINUTES ∧
  pendingReminders later !! "U1" = None ∧
  eval (getPendingReminder "U1") later = None ∧
  eval (handleEvent "U1" StickerMessage) later
  = Some (ReplyTaken [mkMedicine "med_0" "Para" 30 28 2 1 0] []).
Proof.
  split; [by vm_compute |]. split; [by vm_compute |].
  intros later. split; [by vm_compute |]. split; [by vm_compute |].
  split; by vm_compute.
Qed.

(** ** Dose recording *)

Lemma takeMedicine_not_found w userId medicineId :
  list_find (λ m, id m = medicineId) (medicines (eval (getUser userId) w)) = None →
  takeMedicine userId medicineId w
  = (Failure "ไม่พบยาที่ระบุ", exec (getUser userId) w).
Proof.
  unfold takeMedicine, bind, eval, exec. destruct (getUser userId w) as [user w1]. simpl.
  by intros ->.
Qed.

Lemma takeMedicine_insufficient w userId medicineId i medicine :
  list_find (λ m, id m = medicineId) (medicines (eval (getUser userId) w))
    = Some (i, medicine) →
  remainingPills medicine < pillsPerDose medicine →
  takeMedicine userId medicineId w
  = (Failure ("❌ ยา " +:+ name medicine +:+ " หมดแล้ว!"), exec (getUser userId) w).
Proof.
  unfold takeMedicine, bind, eval, exec. destruct (getUser userId w) as [user w1]. simpl.
  intros -> Hlt.
  by destruct (Z.ltb_spec (remainingPills medicine) (pillsPerDose medicine)); [| lia].
Qed.

Lemma takeMedicine_success w data userId user medicineId i medicine :
  redisFaults w = [] → redisData w = Some data → data !! userId = Some user →
  list_find (λ m, id m = medicineId) (medicines user) = Some (i, medicine) →
  pillsPerDose medicine ≤ remainingPills medicine →
  let after :=
    set_remainingPills (remainingPills medicine - pillsPerDose medicine) medicine in
  let check := lowStockCheck after medicineId (alertedMedicines user) in
  takeMedicine userId medicineId w
  = (Success after check.1,
     withData (Some (<[userId := mkUser (<[i := after]> (medicines user))
                                        (settings user) check.2]> data)) w).
Proof.
  intros Hf Hd Hu Hfind Hle after check.
  unfold takeMedicine, bind. rewrite (getUser_found w data userId user Hf Hd Hu), Hfind.
  destruct (Z.ltb_spec (remainingPills medicine) (pillsPerDose medicine)); [lia |].
  simpl. fold after. fold check. destruct check as [alert ledger] eqn:Hcheck.
  rewrite (saveUser_ok w _ _ Hf), Hd. done.
Qed.

Lemma lowStockCheck_cases medicine alertKey alerted :
  ledger_wf alerted →
  let left := remainingPills medicine in
  let entry := alerted !! alertKey in
  let level2 := left ≤ 5 ∧ (entry = None ∨ ∃ level, entry = Some level ∧ level < 2) in
  let level1 := 5 < left ≤ 10 ∧ entry = None in
  (level2 → lowStockCheck medicine alertKey alerted
            = (Some (mkAlert medicine 2), <[alertKey := 2]> alerted)) ∧
  (¬ level2 → level1 → lowStockCheck medicine alertKey alerted
            = (Some (mkAlert medicine 1), <[alertKey := 1]> alerted)) ∧
  (¬ level2 → ¬ level1 → lowStockCheck medicine alertKey alerted = (None, alerted)).
Proof.
  intros Hwf left entry level2 level1. unfold lowStockCheck. fold left. fold entry.
  assert (Hentry : entry = None ∨ entry = Some 1 ∨ entry = Some 2).
  { destruct entry as [level|] eqn:He; [| by left].
    right. destruct (Hwf alertKey level He) as [-> | ->]; auto. }
  subst level2 level1.
  destruct (Z.leb_spec left 5), (Z.leb_spec left 10), (Z.ltb_spec 5 left);
    destruct Hentry as [-> | [-> | ->]]; simpl;
    (split; [| split]); intros; try done; try lia;
    naive_solver lia.
Qed.

Lemma refillMedicine_success w data userId user medicineName amount j target :
  redisFaults w = [] → redisData w = Some data → data !! userId = Some user →
  list_find (λ m, nameMatches medicineName m) (medicines user) = Some (j, target) →
  let after := set_remainingPills (remainingPills target + amount) target in
  refillMedicine userId medicineName amount w
  = (Success after None,
     withData (Some (<[userId := clearAlert (id target)
                                   (set_medicines (<[j := after]> (medicines user)) user)]>
                       data)) w).
Proof.
  intros Hf Hd Hu Hfind after.
  unfold refillMedicine, bind. rewrite (getUser_found w data userId user Hf Hd Hu), Hfind.
  simpl. fold after. by rewrite (saveUser_ok w _ _ Hf), Hd.
Qed.

Lemma clearAlert_ledger_wf key user :
  ledger_wf (alertedMedicines user) →
  clearAlert key user
  = mkUser (medicines user) (settings user) (delete key (alertedMedicines user)).
Proof.
  intros Hwf. unfold clearAlert.
  destruct (alertedMedicines user !! key) as [level|] eqn:He; simpl.
  - destruct (Hwf key level He) as [-> | ->]; done.
  - rewrite delete_id by done. by destruct user.
Qed.

(** C3.  In a store that answers, for a profile whose ledger holds levels 1
    and 2 only: a successful [takeMedicine] raises alert 2 and writes 2 in the
    ledger exactly when the stock left is at most 5 and the entry is unset or
    below 2; otherwise alert 1, writing 1, exactly when the stock left is in
    (5, 10] and the entry is unset; otherwise no alert and the ledger is as
    before.  [refillMedicine] removes the entry of the medicine it refills, so
    that the stock level alone decides the next alerts. *)
Theorem takeMedicine_alert_ledger
    (w : World) (data : gmap string UserProfile) (userId : string) (user : UserProfile) :
  redisFaults w = [] → redisData w = Some data → data !! userId = Some user →
  ledger_wf (alertedMedicines user) →
  (∀ medicineId i medicine,
     list_find (λ m, id m = medicineId) (medicines user) = Some (i, medicine) →
     pillsPerDose medicine ≤ remainingPills medicine →
     let left := remainingPills medicine - pillsPerDose medicine in
     let after := set_remainingPills left medicine in
     let entry := alertedMedicines user !! medicineId in
     let level2 := left ≤ 5 ∧ (entry = None ∨ ∃ level, entry = Some level ∧ level < 2) in
     let level1 := 5 < left ≤ 10 ∧ entry = None in
     ∃ alert ledger,
       takeMedicine userId medicineId w
       = (Success after alert,
          withData (Some (<[userId := mkUser (<[i := after]> (medicines user))
                                             (settings user) ledger]> data)) w) ∧
       (level2 → alert = Some (mkAlert after 2) ∧
                 ledger = <[medicineId := 2]> (alertedMedicines user)) ∧
       (¬ level2 → level1 → alert = Some (mkAlert after 1) ∧
                 ledger = <[medicineId := 1]> (alertedMedicines user)) ∧
       (¬ level2 → ¬ level1 → alert = None ∧ ledger = alertedMedicines user)) ∧
  (∀ medicineName amount j target,
     list_find (λ m, nameMatches medicineName m) (medicines user) = Some (j, target) →
     let after := set_remainingPills (remainingPills target + amount) target in
     let ledger := delete (id target) (alertedMedicines user) in
     refillMedicine userId medicineName amount w
     = (Success after None,
        withData (Some (<[userId := mkUser (<[j := after]> (medicines user))
                                           (settings user) ledger]> data)) w) ∧
     ledger !! id target = None ∧
     ∀ m, (remainingPills m ≤ 5 →
             (lowStockCheck m (id target) ledger).1 = Some (mkAlert m 2)) ∧
          (5 < remainingPills m ≤ 10 →
             (lowStockCheck m (id target) ledger).1 = Some (mkAlert m 1))).
Proof.
  intros Hf Hd Hu Hwf. split.
  - intros medicineId i medicine Hfind Hle left after entry level2 level1.
    pose proof (takeMedicine_success w data userId user medicineId i medicine
                  Hf Hd Hu Hfind Hle) as Hrun. simpl in Hrun.
    fold left in Hrun. fold after in Hrun.
    destruct (lowStockCheck_cases after medicineId (alertedMedicines user) Hwf)
      as (H2 & H1 & H0).
    exists (lowStockCheck after medicineId (alertedMedicines user)).1,
           (lowStockCheck after medicineId (alertedMedicines user)).2.
    split; [exact Hrun |].
    split; [| split].
    + intros Hl2. by rewrite (H2 Hl2).
    + intros Hn2 Hl1. by rewrite (H1 Hn2 Hl1).
    + intros Hn2 Hn1. by rewrite (H0 Hn2 Hn1).
  - intros medicineName amount j target Hfind after ledger.
    pose proof (refillMedicine_success w data userId user medicineName amount j target
                  Hf Hd Hu Hfind) as Hrun. simpl in Hrun.
    rewrite clearAlert_ledger_wf in Hrun by done. simpl in Hrun.
    split; [exact Hrun |].
    assert (Hnone : ledger !! id target = None) by apply lookup_delete_eq.
    split; [exact Hnone |].
    intros m. unfold lowStockCheck. rewrite Hnone. simpl. split; intros Hm.
    + by destruct (Z.leb_spec (remainingPills m) 5); [| lia].
    + destruct (Z.leb_spec (remainingPills m) 5); [lia |].
      destruct (Z.leb_spec (remainingPills m) 10); [| lia].
      by destruct (Z.ltb_spec 5 (remainingPills m)); [| lia].
Qed.

Lemma takeMedicine_alert_ledger_witness :
  redisFaults twelveLeft = [] ∧
  ledger_wf (alertedMedicines (mkUser [para 12] (mkSettings "08:00" "20:00") ∅)) ∧
  eval (takeMedicine "U1" "med_0") twelveLeft
  = Success (para 10) (Some (mkAlert (para 10) 1)).
Proof.
  assert (Hwf : ledger_wf (alertedMedicines (mkUser [para 12] (mkSettings "08:00" "20:00") ∅)))
    by apply map_Forall_empty.
  split; [reflexivity |]. split; [exact Hwf |].
  destruct (takeMedicine_alert_ledger twelveLeft
              {[ "U1" := mkUser [para 12] (mkSettings "08:00" "20:00") ∅ ]}
              "U1" (mkUser [para 12] (mkSettings "08:00" "20:00") ∅)
              ltac:(by vm_compute) ltac:(by vm_compute) ltac:(by vm_compute) Hwf)
    as [Htake _].
  destruct (Htake "med_0" 0%nat (para 12) ltac:(by vm_compute) ltac:(simpl; lia))
    as (alert & ledger & Hrun & _ & Hlevel1 & _).
  unfold eval. rewrite Hrun. simpl.
  destruct Hlevel1 as [-> _]; [simpl; lia | simpl; split; [lia | reflexivity] | reflexivity].
Defined.

(** C5.  When the medicine is not in the profile, or holds fewer pills than
    one dose, [takeMedicine] answers with a failure that carries a message
    and does nothing beyond the profile lookup: no save is made.  For a user
    the store already knows, the world after the call is the world before. *)
Theorem takeMedicine_failure_leaves_profile
    (w : World) (userId medicineId : string) :
  let user := eval (getUser userId) w in
  let found := list_find (λ m, id m = medicineId) (medicines user) in
  found = None ∨
  (∃ i medicine, found = Some (i, medicine) ∧
                 remainingPills medicine < pillsPerDose medicine) →
  ∃ message,
    takeMedicine userId medicineId w = (Failure message, exec (getUser userId) w) ∧
    message ≠ EmptyString ∧
    (∀ data profile,
       redisFaults w = [] → redisData w = Some data → data !! userId = Some profile →
       user = profile ∧ takeMedicine userId medicineId w = (Failure message, w)).
Proof.
  intros user found Hcase.
  assert (Hsame : ∀ data profile,
            redisFaults w = [] → redisData w = Some data → data !! userId = Some profile →
            user = profile ∧ exec (getUser userId) w = w).
  { intros data profile Hf Hd Hu. subst user. unfold eval, exec.
    by rewrite (getUser_found w data userId profile Hf Hd Hu). }
  destruct Hcase as [Hnone | (i & medicine & Hsome & Hlt)].
  - exists "ไม่พบยาที่ระบุ". rewrite (takeMedicine_not_found w userId medicineId Hnone).
    split; [done |]. split; [done |].
    intros data profile Hf Hd Hu. destruct (Hsame data profile Hf Hd Hu) as [-> ->]. done.
  - exists ("❌ ยา " +:+ name medicine +:+ " หมดแล้ว!").
    rewrite (takeMedicine_insufficient w userId medicineId i medicine Hsome Hlt).
    split; [done |]. split; [done |].
    intros data profile Hf Hd Hu. destruct (Hsame data profile Hf Hd Hu) as [-> ->]. done.
Qed.

Lemma takeMedicine_failure_leaves_profile_witness :
  list_find (λ m, id m = "med_9") (medicines (eval (getUser "U1") twelveLeft)) = None ∧
  ∃ message, takeMedicine "U1" "med_9" twelveLeft = (Failure message, twelveLeft).
Proof.
  assert (Hnone : list_find (λ m, id m = "med_9")
                    (medicines (eval (getUser "U1") twelveLeft)) = None)
    by (by vm_compute).
  split; [exact Hnone |].
  destruct (takeMedicine_failure_leaves_profile twelveLeft "U1" "med_9" (or_introl Hnone))
    as (message & _ & _ & Hsame).
  exists message.
  by destruct (Hsame {[ "U1" := mkUser [para 12] (mkSettings "08:00" "20:00") ∅ ]}
                 (mkUser [para 12] (mkSettings "08:00" "20:00") ∅)
                 ltac:(by vm_compute) ltac:(by vm_compute) ltac:(by vm_compute)).
Defined.

(** ** The stock is never negative *)

Lemma stockOk_default : stockOk defaultUser.
Proof. apply Forall_nil_2. Qed.

Lemma addMedicine_stock userId medName total perDose slot w :
  0 ≤ total → stockNonNegative w →
  stockNonNegative (exec (addMedicine userId medName total perDose slot) w).
Proof.
  intros Htotal Hok. unfold addMedicine. rewrite exec_bind.
  destruct (getUser_every stockOk stockOk_default userId w Hok) as [Huser Hok1].
  rewrite exec_bind. unfold dateNow at 2. unfold exec at 2. simpl.
  rewrite exec_bind. unfold ret, exec at 1. simpl.
  apply saveUser_every; [| done].
  unfold stockOk. simpl. apply Forall_app. split; [done |]. by apply Forall_singleton.
Qed.

Lemma takeMedicine_stock userId medicineId w :
  stockNonNegative w →
  stockNonNegative (exec (takeMedicine userId medicineId) w) ∧
  ∀ medicine alert,
    eval (takeMedicine userId medicineId) w = Success medicine alert →
    0 ≤ remainingPills medicine.
Proof.
  intros Hok. unfold takeMedicine. rewrite exec_bind, eval_bind.
  destruct (getUser_every stockOk stockOk_default userId w Hok) as [Huser Hok1].
  destruct (list_find _ (medicines (eval (getUser userId) w))) as [[i medicine]|] eqn:Hfind;
    [| by split].
  destruct (Z.ltb_spec (remainingPills medicine) (pillsPerDose medicine)) as [Hlt | Hge];
    [by split |].
  destruct (lowStockCheck _ medicineId _) as [alert ledger].
  rewrite exec_bind, eval_bind. unfold ret at 1 2. unfold eval at 1, exec at 1. simpl.
  split.
  - apply saveUser_every; [| done]. unfold stockOk. simpl.
    apply Forall_insert; [done | simpl; lia].
  - intros m a [= <- _]. simpl. lia.
Qed.

Lemma clearAlert_stock key user : stockOk user → stockOk (clearAlert key user).
Proof. intros Hok. unfold clearAlert. by destruct (jsTruthy _). Qed.

Lemma refillMedicine_stock userId medicineName amount w :
  0 ≤ amount → stockNonNegative w →
  stockNonNegative (exec (refillMedicine userId medicineName amount) w).
Proof.
  intros Hamount Hok. unfold refillMedicine. rewrite exec_bind.
  destruct (getUser_every stockOk stockOk_default userId w Hok) as [Huser Hok1].
  destruct (list_find _ (medicines (eval (getUser userId) w))) as [[i medicine]|] eqn:Hfind;
    [| done].
  rewrite exec_bind. unfold ret, exec at 1. simpl.
  apply saveUser_every; [| done]. apply clearAlert_stock. unfold stockOk. simpl.
  apply list_find_Some in Hfind as (Hi & _).
  apply Forall_insert; [done |]. simpl.
  assert (0 ≤ remainingPills medicine); [| lia].
  by apply (Forall_lookup_1 _ _ _ _ Huser Hi).
Qed.

Lemma deleteMedicine_stock userId medicineName w :
  stockNonNegative w →
  stockNonNegative (exec (deleteMedicine userId medicineName) w).
Proof.
  intros Hok. unfold deleteMedicine. rewrite exec_bind.
  destruct (getUser_every stockOk stockOk_default userId w Hok) as [Huser Hok1].
  destruct (list_find _ (medicines (eval (getUser userId) w))) as [[i medicine]|] eqn:Hfind;
    [| done].
  rewrite exec_bind. unfold ret, exec at 1. simpl.
  apply saveUser_every; [| done]. apply clearAlert_stock. unfold stockOk. simpl.
  by apply Forall_delete.
Qed.

Lemma runOperation_stock op w :
  fromDigits op → stockNonNegative w → stockNonNegative (exec (runOperation op) w).
Proof.
  intros Hop Hok. destruct op; simpl in *; rewrite exec_bind; unfold ret, exec at 1; simpl.
  - apply addMedicine_stock; [tauto | done].
  - by apply takeMedicine_stock.
  - by apply refillMedicine_stock.
  - by apply deleteMedicine_stock.
Qed.

(** C4.  Starting from a store without negative stock, after any sequence of
    add, take, refill and delete whose numbers are digit captures, whatever
    Redis calls fail on the way, no medicine of any user has negative stock;
    and a dose that [takeMedicine] records leaves at least zero pills. *)
Theorem stock_never_negative (w : World) (ops : list Operation) :
  stockNonNegative w → Forall fromDigits ops →
  stockNonNegative (runOperations ops w) ∧
  (∀ data userId user m,
     redisData (runOperations ops w) = Some data → data !! userId = Some user →
     m ∈ medicines user → 0 ≤ remainingPills m) ∧
  (∀ userId medicineId medicine alert,
     eval (takeMedicine userId medicineId) (runOperations ops w) = Success medicine alert →
     0 ≤ remainingPills medicine).
Proof.
  intros Hok Hops.
  assert (Hend : stockNonNegative (runOperations ops w)).
  { unfold runOperations. revert w Hok.
    induction Hops as [|op ops Hop Hops IH]; intros w Hok; [done |].
    simpl. apply IH. by apply runOperation_stock. }
  split; [done |]. split.
  - intros data userId user m Hd Hu Hm. unfold stockNonNegative, everyProfile in Hend.
    rewrite Hd in Hend. simpl in Hend. specialize (Hend userId user Hu).
    unfold stockOk in Hend. rewrite Forall_forall in Hend. by apply Hend.
  - intros userId medicineId medicine alert Hrun.
    by apply (takeMedicine_stock userId medicineId _ Hend) in Hrun.
Qed.

Lemma stock_never_negative_witness :
  let ops := [ OpAdd "U1" "Para" 2 2 1; OpTake "U1" "med_0"; OpTake "U1" "med_0";
               OpRefill "U1" "para" 3; OpTake "U1" "med_0"; OpDelete "U1" "para" ] in
  stockNonNegative emptyWorld ∧ Forall fromDigits ops ∧
  stockNonNegative (runOperations ops emptyWorld).
Proof.
  intros ops.
  assert (Hstart : stockNonNegative emptyWorld) by apply map_Forall_empty.
  assert (Hops : Forall fromDigits ops) by (repeat constructor; simpl; lia).
  split; [exact Hstart |]. split; [exact Hops |].
  exact (proj1 (stock_never_negative emptyWorld ops Hstart Hops)).
Defined.

(** ** The ledger only holds the levels 1 and 2 *)

Lemma ledgerOk_default : ledgerOk defaultUser.
Proof. apply map_Forall_empty. Qed.

Lemma lowStockCheck_wf medicine key alerted :
  ledger_wf alerted → ledger_wf (lowStockCheck medicine key alerted).2.
Proof.
  intros Hwf. unfold lowStockCheck.
  repeat match goal with |- context [if ?b then _ else _] => destruct b end;
    simpl; try done; apply map_Forall_insert_2; auto.
Qed.

Lemma clearAlert_wf key user : ledgerOk user → ledgerOk (clearAlert key user).
Proof.
  intros Hok. unfold clearAlert. destruct (jsTruthy _); [| done].
  unfold ledgerOk. simpl. by apply map_Forall_delete.
Qed.

Lemma runOperation_ledger op w :
  ledgersWellFormed w → ledgersWellFormed (exec (runOperation op) w).
Proof.
  intros Hok. destruct op as [userId ? ? ? ? | userId medicineId | userId ? ? | userId ?];
    simpl; rewrite exec_bind; unfold ret, exec at 1; simpl;
    [unfold addMedicine | unfold takeMedicine | unfold refillMedicine | unfold deleteMedicine];
    rewrite exec_bind;
    destruct (getUser_every ledgerOk ledgerOk_default userId w Hok) as [Huser Hok1].
  - rewrite exec_bind. unfold dateNow at 2. unfold exec at 2. simpl.
    rewrite exec_bind. unfold ret, exec at 1. simpl. by apply saveUser_every.
  - destruct (list_find _ _) as [[i medicine]|]; [| done].
    destruct (_ <? _); [done |].
    destruct (lowStockCheck _ medicineId _) as [alert ledger] eqn:Hcheck.
    rewrite exec_bind. unfold ret, exec at 1. simpl.
    apply saveUser_every; [| done]. unfold ledgerOk. simpl.
    replace ledger with (alert, ledger).2 by done. rewrite <- Hcheck.
    by apply lowStockCheck_wf.
  - destruct (list_find _ _) as [[i medicine]|]; [| done].
    rewrite exec_bind. unfold ret, exec at 1. simpl.
    apply saveUser_every; [| done]. by apply clearAlert_wf.
  - destruct (list_find _ _) as [[i medicine]|]; [| done].
    rewrite exec_bind. unfold ret, exec at 1. simpl.
    apply saveUser_every; [| done]. by apply clearAlert_wf.
Qed.

(** The hypothesis on the ledger in the alert property is an invariant of
    the store: it holds of the empty store and every operation keeps it. *)
Lemma ledgers_stay_well_formed w ops :
  ledgersWellFormed w → ledgersWellFormed (runOperations ops w).
Proof.
  unfold runOperations. revert w.
  induction ops as [|op ops IH]; intros w Hok; [done |].
  simpl. apply IH. by apply runOperation_ledger.
Qed.

(** ** Resolving a medicine by name *)

Lemma prefix_spec t s :
  String.prefix t s = true ↔ ∃ post, s = t +:+ post.
Proof.
  revert s. induction t as [|a t IH]; intros [|b s]; simpl.
  - split; [intros _; by exists EmptyString | by intros _].
  - split; [intros _; by exists (String b s) | by intros _].
  - split; [done | intros [post Hpost]; discriminate].
  - destruct (Ascii.ascii_dec a b) as [->|Hne].
    + rewrite IH. split; intros [post Hpost]; exists post.
      * simpl. by rewrite Hpost.
      * simpl in Hpost. by injection Hpost.
    + split; [done | intros [post Hpost]; simpl in Hpost; injection Hpost as Hab _; by destruct Hne].
Qed.

Lemma includes_unfold s t :
  includes s t =
    String.prefix t s || match s with
                         | EmptyString => false
                         | String _ rest => includes rest t
                         end.
Proof. by destruct s. Qed.

Lemma includes_spec s t :
  includes s t = true ↔ ∃ pre post, s = pre +:+ t +:+ post.
Proof.
  split.
  - induction s as [|c s IH]; rewrite includes_unfold, orb_true_iff.
    + intros [Hp | Hf]; [| done]. apply prefix_spec in Hp as [post Hpost].
      by exists EmptyString, post.
    + intros [Hp | Hrest].
      * apply prefix_spec in Hp as [post Hpost]. by exists EmptyString, post.
      * destruct (IH Hrest) as (pre & post & ->). by exists (String c pre), post.
  - intros (pre & post & ->). induction pre as [|c pre IH];
      rewrite includes_unfold, orb_true_iff.
    + left. apply prefix_spec. by exists post.
    + right. exact IH.
Qed.


Lemma list_find_by_id meds i m :
  NoDup (id <$> meds) → meds !! i = Some m →
  list_find (λ x, id x = id m) meds = Some (i, m).
Proof.
  intros Hnd Hi. apply list_find_Some. split; [done |]. split; [done |].
  intros j y Hj Hlt Heq.
  assert (i = j); [| lia].
  eapply (NoDup_lookup (id <$> meds) i j (id m)); [done | |];
    rewrite list_lookup_fmap; [by rewrite Hi | rewrite Hj; simpl; by rewrite Heq].
Qed.

Lemma deleteMedicine_success w data userId user medicineName index deleted :
  redisFaults w = [] → redisData w = Some data → data !! userId = Some user →
  list_find (λ m, nameMatches medicineName m) (medicines user) = Some (index, deleted) →
  deleteMedicine userId medicineName w
  = (Success deleted None,
     withData (Some (<[userId := clearAlert (id deleted)
                                   (set_medicines (delete index (medicines user)) user)]>
                       data)) w).
Proof.
  intros Hf Hd Hu Hfind.
  unfold deleteMedicine, bind. rewrite (getUser_found w data userId user Hf Hd Hu), Hfind.
  by rewrite (saveUser_ok w _ _ Hf), Hd.
Qed.










(** ** Slot-wide dose recording *)

Lemma lowStockCheck_alert_ext medicine key alerted alerted' :
  alerted !! key = alerted' !! key →
  (lowStockCheck medicine key alerted).1 = (lowStockCheck medicine key alerted').1.
Proof.
  intros Heq. unfold lowStockCheck. rewrite Heq.
  repeat match goal with |- context [if ?b then _ else _] => destruct b end; done.
Qed.

Lemma lowStockCheck_ledger_other medicine key alerted other :
  other ≠ key →
  (lowStockCheck medicine key alerted).2 !! other = alerted !! other.
Proof.
  intros Hne. unfold lowStockCheck.
  repeat match goal with |- context [if ?b then _ else _] => destruct b end;
    simpl; by rewrite ?lookup_insert_ne.
Qed.

Lemma id_doseTaken m : id (doseTaken m) = id m.
Proof. done. Qed.

Lemma fmap_id_insert_dose (meds : list Medicine) i m :
  meds !! i = Some m → id <$> <[i := doseTaken m]> meds = id <$> meds.
Proof.
  intros Hi. rewrite list_fmap_insert. apply list_insert_id.
  by rewrite list_lookup_fmap, Hi.
Qed.

Lemma doseOf_insert (meds : list Medicine) i m ids :
  NoDup (id <$> meds) → meds !! i = Some m → id m ∉ ids →
  doseOf ids <$> <[i := doseTaken m]> meds = doseOf (id m :: ids) <$> meds.
Proof.
  intros Hnd Hi Hnotin. apply list_eq. intros j.
  rewrite !list_lookup_fmap. destruct (decide (j = i)) as [->|Hne].
  - rewrite list_lookup_insert_eq by (by eapply lookup_lt_Some). rewrite Hi. simpl.
    unfold doseOf. rewrite id_doseTaken.
    rewrite decide_False by done. rewrite decide_True by (by left). done.
  - rewrite list_lookup_insert_ne by done.
    destruct (meds !! j) as [x|] eqn:Hj; [| done]. simpl. f_equal.
    assert (Hid : id x ≠ id m).
    { intros Heq. apply Hne.
      eapply (NoDup_lookup (id <$> meds) j i (id m)); [done | |];
        rewrite list_lookup_fmap; [by rewrite Hj; simpl; rewrite Heq | by rewrite Hi]. }
    unfold doseOf. destruct (decide (id x ∈ ids)).
    + rewrite decide_True; [done | by right].
    + rewrite decide_False; [done |]. rewrite elem_of_cons. tauto.
Qed.

Lemma doseOf_nil (meds : list Medicine) : doseOf [] <$> meds = meds.
Proof.
  induction meds as [|m meds IH]; [done |]. rewrite fmap_cons, IH. unfold doseOf.
  rewrite decide_False; [done | apply not_elem_of_nil].
Qed.

Lemma omap_alertFor_ext alerted alerted' (ms : list Medicine) :
  (∀ x, x ∈ ms → alerted !! id x = alerted' !! id x) →
  omap (alertFor alerted) ms = omap (alertFor alerted') ms.
Proof.
  induction ms as [|x ms IH]; intros Hext; [done |].
  cbn [omap list_omap]. rewrite IH by (intros y Hy; apply Hext; by right).
  unfold alertFor at 1 3.
  rewrite (lowStockCheck_alert_ext _ _ alerted alerted') by (apply Hext; by left).
  done.
Qed.

Lemma NoDup_id_by_elem (meds : list Medicine) x y :
  NoDup (id <$> meds) → x ∈ meds → y ∈ meds → id x = id y → x = y.
Proof.
  intros Hnd Hx Hy Heq.
  apply list_elem_of_lookup in Hx as [i Hi]. apply list_elem_of_lookup in Hy as [j Hj].
  assert (i = j).
  { eapply (NoDup_lookup (id <$> meds) i j (id x)); [done | |];
      rewrite list_lookup_fmap; [by rewrite Hi | rewrite Hj; simpl; by rewrite Heq]. }
  subst j. congruence.
Qed.

(** The loop of [processTakeMedicine] over medicines of the stored profile
    with pairwise different identifiers, in a store that answers. *)
Lemma takeLoop_run userId meds : ∀ cur data w taken alerts,
  redisFaults w = [] → redisData w = Some data → data !! userId = Some cur →
  NoDup (id <$> medicines cur) → NoDup (id <$> meds) →
  (∀ m, m ∈ meds → m ∈ medicines cur) →
  takeLoop userId meds taken alerts w
  = ((taken ++ (doseTaken <$> filter hasDose meds),
      alerts ++ omap (alertFor (alertedMedicines cur)) (filter hasDose meds)),
     withData
       (Some (<[userId := mkUser (doseOf (id <$> filter hasDose meds) <$> medicines cur)
                                 (settings cur)
                                 (ledgerAfter (alertedMedicines cur) (filter hasDose meds))]>
                data)) w).
Proof.
  induction meds as [|m rest IH]; intros cur data w taken alerts Hf Hd Hu Hnd Hndm Hin.
  - simpl. rewrite !app_nil_r, doseOf_nil. unfold ret. f_equal.
    replace (mkUser (medicines cur) (settings cur) (alertedMedicines cur)) with cur
      by (by destruct cur).
    rewrite insert_id by done. rewrite <- Hd. symmetry. apply withData_same.
  - assert (Hm : m ∈ medicines cur) by (apply Hin; by left).
    apply list_elem_of_lookup in Hm as [i Hi].
    pose proof (list_find_by_id _ _ _ Hnd Hi) as Hfind.
    rewrite fmap_cons in Hndm. apply NoDup_cons in Hndm as [Hfresh Hndrest].
    assert (Hrest : ∀ x, x ∈ rest → id x ≠ id m).
    { intros x Hx Heq. apply Hfresh. rewrite <- Heq. apply list_elem_of_fmap. by exists x. }
    cbn [takeLoop]. unfold bind.
    destruct (decide (hasDose m)) as [Hdose | Hnodose].
    + rewrite (takeMedicine_success w data userId cur (id m) i m Hf Hd Hu Hfind Hdose).
      cbn [fst snd]. fold (doseTaken m).
      set (check := lowStockCheck (doseTaken m) (id m) (alertedMedicines cur)).
      set (cur1 := mkUser (<[i := doseTaken m]> (medicines cur)) (settings cur) check.2).
      rewrite (IH cur1 (<[userId := cur1]> data)).
      * rewrite filter_cons_True by done.
        assert (Hnotin : id m ∉ id <$> filter hasDose rest).
        { intros Hx. apply list_elem_of_fmap in Hx as (x & Heq & Hx).
          apply list_elem_of_filter in Hx as [_ Hx]. by apply (Hrest x). }
        assert (Halerts : omap (alertFor (alertedMedicines cur1)) (filter hasDose rest)
                          = omap (alertFor (alertedMedicines cur)) (filter hasDose rest)).
        { apply omap_alertFor_ext. intros x Hx. apply list_elem_of_filter in Hx as [_ Hx].
          apply lowStockCheck_ledger_other. by apply Hrest. }
        rewrite Halerts, withData_withData, insert_insert_eq.
        cbn [medicines settings alertedMedicines cur1].
        rewrite (doseOf_insert _ _ _ _ Hnd Hi Hnotin).
        rewrite <- !app_assoc, fmap_cons.
        cbn [omap list_omap fmap list_fmap ledgerAfter foldl].
        fold (alertFor (alertedMedicines cur) m).
        change (alertFor (alertedMedicines cur) m) with check.1.
        by destruct check.1.
      * done.
      * done.
      * apply lookup_insert_eq.
      * cbn [medicines cur1]. by rewrite fmap_id_insert_dose.
      * done.
      * intros x Hx. assert (Hxc : x ∈ medicines cur) by (apply Hin; by right).
        apply list_elem_of_lookup in Hxc as [j Hj]. apply list_elem_of_lookup. exists j.
        cbn [medicines cur1]. rewrite list_lookup_insert_ne; [done |]. intros ->.
        rewrite Hi in Hj. injection Hj as ->. by apply (Hrest x).
    + assert (Hlt : remainingPills m < pillsPerDose m) by (unfold hasDose in Hnodose; lia).
      assert (Huser : getUser userId w = (cur, w)) by (by eapply getUser_found).
      rewrite (takeMedicine_insufficient w userId (id m) i m);
        [| unfold eval; by rewrite Huser | done].
      unfold exec. rewrite Huser. cbn [fst snd].
      rewrite filter_cons_False by done.
      apply IH; try done. intros x Hx. apply Hin. by right.
Qed.

(** In general: with nothing due in the slot the world, pending entry
    included, is left exactly as it was. *)
Lemma processTakeMedicine_nothing_due w userId user slot :
  filter (λ m, timeSlot m = slot ∧ 0 < remainingPills m) (medicines user) = [] →
  processTakeMedicine userId user slot w = (ReplyNothingToTake slot, w).
Proof. intros Hnone. unfold processTakeMedicine. by rewrite Hnone. Qed.

(** C6.  In a store that answers, for a stored profile whose medicines have
    pairwise different identifiers: [processTakeMedicine] calls [takeMedicine]
    on the medicines of the slot that have stock left, in stored order.  Those
    holding a full dose lose one dose and are listed, with their alerts, in
    that order; every other medicine of the profile is as before, and no
    failure is reported.  With no medicine of the slot in stock nothing is
    listed and nothing changes. *)
Theorem processTakeMedicine_slot
    (w : World) (data : gmap string UserProfile) (userId : string)
    (user : UserProfile) (slot : Z) :
  redisFaults w = [] → redisData w = Some data → data !! userId = Some user →
  NoDup (id <$> medicines user) →
  let due := filter (λ m, timeSlot m = slot ∧ 0 < remainingPills m) (medicines user) in
  let dosed := filter hasDose due in
  let stored :=
    (λ m, if decide (timeSlot m = slot ∧ 0 < remainingPills m ∧ hasDose m)
          then doseTaken m else m) <$> medicines user in
  (due = [] → processTakeMedicine userId user slot w = (ReplyNothingToTake slot, w)) ∧
  (due ≠ [] →
     processTakeMedicine userId user slot w
     = (ReplyTaken (doseTaken <$> dosed) (omap (alertFor (alertedMedicines user)) dosed),
        withPending (delete userId (pendingReminders w))
          (withData (Some (<[userId := mkUser stored (settings user)
                                         (ledgerAfter (alertedMedicines user) dosed)]>
                             data)) w))) ∧
  (∀ m, m ∈ medicines user → remainingPills m = 0 → (m ∉ due) ∧ (m ∈ stored)).
Proof.
  intros Hf Hd Hu Hnd due dosed stored.
  assert (Hsub : sublist due (medicines user)) by apply sublist_filter.
  assert (Hnddue : NoDup (id <$> due)).
  { eapply sublist_NoDup; [exact Hnd |]. by apply fmap_sublist. }
  assert (Hindue : ∀ m, m ∈ due → m ∈ medicines user).
  { intros m Hm. by apply list_elem_of_filter in Hm as [_ Hm]. }
  assert (Hstored : doseOf (id <$> dosed) <$> medicines user = stored).
  { apply list_fmap_ext. intros i m Hi. unfold doseOf.
    assert (Hm : m ∈ medicines user) by (apply list_elem_of_lookup; by exists i).
    destruct (decide (timeSlot m = slot ∧ 0 < remainingPills m ∧ hasDose m))
      as [(Hs & Hr & Hdose) | Hno].
    - rewrite decide_True; [done |]. apply list_elem_of_fmap. exists m. split; [done |].
      apply list_elem_of_filter. split; [done |]. by apply list_elem_of_filter.
    - rewrite decide_False; [done |]. intros Hx.
      apply list_elem_of_fmap in Hx as (x & Heq & Hx).
      apply list_elem_of_filter in Hx as [Hdose Hx].
      apply list_elem_of_filter in Hx as [[Hs Hr] Hx].
      assert (m = x) by (by apply (NoDup_id_by_elem (medicines user) m x Hnd Hm Hx)).
      subst x. by apply Hno. }
  assert (Hloop : ∀ taken alerts,
     bind (takeLoop userId due taken alerts) (λ collected,
       bind (pendingDelete userId) (λ _,
         ret (ReplyTaken collected.1 collected.2))) w
     = (ReplyTaken (taken ++ (doseTaken <$> dosed))
                   (alerts ++ omap (alertFor (alertedMedicines user)) dosed),
        withPending (delete userId (pendingReminders w))
          (withData (Some (<[userId := mkUser stored (settings user)
                                         (ledgerAfter (alertedMedicines user) dosed)]>
                             data)) w))).
  { intros taken alerts. unfold bind.
    rewrite (takeLoop_run userId due user data w taken alerts Hf Hd Hu Hnd Hnddue Hindue).
    fold dosed. rewrite Hstored. done. }
  split; [| split].
  - intros Hempty. unfold processTakeMedicine. fold due. by rewrite Hempty.
  - intros Hne. etransitivity; [| exact (Hloop [] [])].
    unfold processTakeMedicine. fold due. revert Hne. generalize due.
    by intros [|m rest] Hne.
  - intros m Hm Hzero. split.
    + intros Hx. apply list_elem_of_filter in Hx as [[_ Hpos] _]. lia.
    + apply list_elem_of_fmap. exists m. split; [| done].
      rewrite decide_False; [done |]. intros (_ & Hpos & _). lia.
Qed.

Lemma processTakeMedicine_slot_witness :
  redisFaults cabinet = [] ∧
  redisData cabinet = Some {[ "U1" := cabinetUser ]} ∧
  NoDup (id <$> medicines cabinetUser) ∧
  eval (processTakeMedicine "U1" cabinetUser 1) cabinet
  = ReplyTaken [mkMedicine "med_0" "Para" 12 10 2 1 0]
               [mkAlert (mkMedicine "med_0" "Para" 12 10 2 1 0) 1].
Proof.
  assert (Hnd : NoDup (id <$> medicines cabinetUser))
    by (apply (bool_decide_unpack _); by vm_compute).
  split; [reflexivity |]. split; [by vm_compute |]. split; [exact Hnd |].
  destruct (processTakeMedicine_slot cabinet {[ "U1" := cabinetUser ]} "U1" cabinetUser 1
              ltac:(by vm_compute) ltac:(by vm_compute) ltac:(by vm_compute) Hnd)
    as (_ & Hrun & _).
  unfold eval. rewrite Hrun; [by vm_compute | by vm_compute].
Defined.

(** C6 as stated fails: on [lessThanADose] the only medicine of slot 1 holds
    one pill of a dose of two.  It is among the medicines
    [processTakeMedicine] calls [takeMedicine] on, that call fails, and the
    reply neither lists the medicine nor reports the failure: the result of
    the attempt is not collected. *)
Lemma failed_attempt_is_not_collected :
  profileOf "U1" lessThanADose
  = Some (mkUser [mkMedicine "med_0" "Ibu" 1 1 2 1 0] (mkSettings "08:00" "20:00") ∅) ∧
  filter (λ m, timeSlot m = 1 ∧ 0 < remainingPills m) [mkMedicine "med_0" "Ibu" 1 1 2 1 0]
  = [mkMedicine "med_0" "Ibu" 1 1 2 1 0] ∧
  eval (takeMedicine "U1" "med_0") lessThanADose = Failure "❌ ยา Ibu หมดแล้ว!" ∧
  eval (processTakeMedicine "U1"
          (mkUser [mkMedicine "med_0" "Ibu" 1 1 2 1 0] (mkSettings "08:00" "20:00") ∅) 1)
       lessThanADose
  = ReplyTaken [] [].
Proof.
  split; [by vm_compute |]. split; [by vm_compute |]. split; by vm_compute.
Qed.

(** In [handleEvent] the profile handed to the handlers is the stored one. *)
Lemma handleEvent_found w data userId user message :
  redisFaults w = [] → redisData w = Some data → data !! userId = Some user →
  handleEvent userId message w
  = match message with
    | StickerMessage =>
        bind (handleStickerMessage userId user) (λ r, ret (Some r)) w
    | TextMessage cmd =>
        bind (handleTextMessage cmd userId user) (λ r, ret (Some r)) w
    | OtherMessage | OtherEvent => (None, w)
    end.
Proof.
  intros Hf Hd Hu. destruct message; [| | | done];
    unfold handleEvent, bind at 1;
    by rewrite (getUser_found w data userId user Hf Hd Hu).
Qed.

(** ** Inferring the slot from the clock *)





(** ** The pending entry after an acknowledgment *)

(** The early return in general: a fresh pending entry for a slot with
    nothing in stock survives the acknowledgment, by sticker or by text. *)
Lemma acknowledgment_with_nothing_due w userId user p :
  pendingReminders w !! userId = Some p →
  clock w - timestamp p ≤ THIRTY_MINUTES →
  pendingSlot p ≠ 0 →
  filter (λ m, timeSlot m = pendingSlot p ∧ 0 < remainingPills m) (medicines user) = [] →
  handleStickerMessage userId user w = (ReplyNothingToTake (pendingSlot p), w) ∧
  handleTextMessage CmdTaken userId user w = (ReplyNothingToTake (pendingSlot p), w) ∧
  pendingReminders (exec (handleStickerMessage userId user) w) !! userId = Some p.
Proof.
  intros Hp Hfresh Hslot Hnone.
  assert (Hsticker : handleStickerMessage userId user w
                     = (ReplyNothingToTake (pendingSlot p), w)).
  { unfold handleStickerMessage, bind.
    rewrite (getPendingReminder_fresh w userId p Hp Hfresh).
    by apply processTakeMedicine_nothing_due. }
  split; [exact Hsticker |]. split.
  - unfold handleTextMessage, bind.
    rewrite (getPendingReminder_fresh w userId p Hp Hfresh). unfold thaiHour.
    destruct (Z.eqb_spec (pendingSlot p) 0); [done |].
    by apply processTakeMedicine_nothing_due.
  - unfold exec. by rewrite Hsticker.
Qed.

(** C7.  A reminder for slot 1 is pending and the slot has no medicine in
    stock any more.  The acknowledgment (text or sticker) is answered with
    "nothing to take" by the early return of [processTakeMedicine], before
    [pendingReminders.delete]: the entry is still there and still returned
    afterwards.  When a medicine of the slot has stock but less than a dose,
    no dose is recorded either, and there the entry is deleted. *)
Theorem empty_acknowledgment_keeps_pending_entry :
  let w := lastDoseTakenByName in
  let acknowledged := exec (handleEvent "U1" (TextMessage CmdTaken)) w in
  pendingReminders w !! "U1" = Some (mkPending 1 at0800) ∧
  eval (handleEvent "U1" (TextMessage CmdTaken)) w = Some (ReplyNothingToTake 1) ∧
  pendingReminders acknowledged !! "U1" = Some (mkPending 1 at0800) ∧
  eval (getPendingReminder "U1") acknowledged = Some (mkPending 1 at0800) ∧
  eval (handleEvent "U1" StickerMessage) w = Some (ReplyNothingToTake 1) ∧
  pendingReminders (exec (handleEvent "U1" StickerMessage) w) !! "U1"
    = Some (mkPending 1 at0800) ∧
  pendingReminders lessThanADose !! "U1" = Some (mkPending 1 at0800) ∧
  eval (handleEvent "U1" (TextMessage CmdTaken)) lessThanADose = Some (ReplyTaken [] []) ∧
  pendingReminders (exec (handleEvent "U1" (TextMessage CmdTaken)) lessThanADose) !! "U1"
    = None.
Proof.
  split; [by vm_compute |]. split; [by vm_compute |]. split; [by vm_compute |].
  split; [by vm_compute |]. split; [by vm_compute |]. split; [by vm_compute |].
  split; [by vm_compute |]. split; [by vm_compute |]. by vm_compute.
Qed.

(** * Further properties *)

(** ** The store: first access and round trip *)

Lemma profileOf_withData data w userId :
  profileOf userId (withData (Some data) w) = data !! userId.
Proof. done. Qed.

(** X1.  In a store that answers, the first access of an unknown user stores
    the default profile (no medicines, 08:00 and 20:00, empty ledger) and
    returns it; the profiles of the other users stay; a second access returns
    the same profile and changes nothing.  [handleEvent] does this for every
    event of type message before it looks at the kind of message (a sticker,
    a text, or one it has no handler for), and the handlers get the default
    profile; for an event of another type it returns at once and the user is
    not stored. *)
Theorem getUser_registers_unknown_user (w : World) (userId : string) :
  redisFaults w = [] → profileOf userId w = None →
  let w1 := exec (getUser userId) w in
  eval (getUser userId) w = defaultUser ∧
  profileOf userId w1 = Some defaultUser ∧
  (∀ other, other ≠ userId → profileOf other w1 = profileOf other w) ∧
  getUser userId w1 = (defaultUser, w1) ∧
  handleEvent userId OtherMessage w = (None, w1) ∧
  handleEvent userId StickerMessage w
  = bind (handleStickerMessage userId defaultUser) (λ r, ret (Some r)) w1 ∧
  (∀ cmd, handleEvent userId (TextMessage cmd) w
          = bind (handleTextMessage cmd userId defaultUser) (λ r, ret (Some r)) w1) ∧
  handleEvent userId OtherEvent w = (None, w) ∧
  trackerOf w1 = trackerOf w.
Proof.
  intros Hf Hnone w1. unfold profileOf in Hnone.
  pose proof (getUser_fresh w userId Hf Hnone) as Hrun.
  assert (Hw1 : w1 = withData (Some (<[userId := defaultUser]> (default ∅ (redisData w)))) w)
    by (subst w1; unfold exec; by rewrite Hrun).
  split; [unfold eval; by rewrite Hrun |].
  split; [rewrite Hw1, profileOf_withData; apply lookup_insert_eq |].
  split; [intros other Hne; rewrite Hw1, profileOf_withData; by apply lookup_insert_ne |].
  split.
  - rewrite Hw1. apply (getUser_found _ (<[userId := defaultUser]> (default ∅ (redisData w))));
      [done | done | apply lookup_insert_eq].
  - assert (Hstep : ∀ (k : UserProfile → M (option Reply)),
              bind (getUser userId) k w = k defaultUser w1).
    { intros k. unfold bind. rewrite Hrun. by rewrite Hw1. }
    split; [apply (Hstep (λ _, ret None)) |].
    split; [apply (Hstep (λ user, bind (handleStickerMessage userId user)
                                       (λ r, ret (Some r)))) |].
    split; [intros cmd;
            apply (Hstep (λ user, bind (handleTextMessage cmd userId user)
                                       (λ r, ret (Some r)))) |].
    split; [reflexivity | by rewrite Hw1].
Qed.

Lemma getUser_registers_unknown_user_witness :
  redisFaults twelveLeft = [] ∧ profileOf "U2" twelveLeft = None ∧
  profileOf "U2" (exec (getUser "U2") twelveLeft) = Some defaultUser ∧
  profileOf "U1" (exec (getUser "U2") twelveLeft) = profileOf "U1" twelveLeft ∧
  profileOf "U2" (exec (handleEvent "U2" OtherMessage) twelveLeft) = Some defaultUser ∧
  profileOf "U2" (exec (handleEvent "U2" OtherEvent) twelveLeft) = None.
Proof.
  assert (Hnone : profileOf "U2" twelveLeft = None) by (by vm_compute).
  split; [reflexivity |]. split; [exact Hnone |].
  destruct (getUser_registers_unknown_user twelveLeft "U2" eq_refl Hnone)
    as (_ & Hnew & Hothers & _ & Hmessage & _ & _ & Hevent & _).
  split; [exact Hnew |]. split; [by apply Hothers |].
  unfold exec. rewrite Hmessage, Hevent. by split.
Defined.

(** X2.  In a store that answers, a profile written with [saveUser] is the
    profile [getUser] returns next, the read changes nothing, and the profiles
    of the other users are as before the write. *)
Theorem saveUser_getUser_round_trip
    (w : World) (userId : string) (userData : UserProfile) :
  redisFaults w = [] →
  let w1 := exec (saveUser userId userData) w in
  getUser userId w1 = (userData, w1) ∧
  (∀ other, other ≠ userId → profileOf other w1 = profileOf other w) ∧
  eval loadData w1 = <[userId := userData]> (eval loadData w) ∧
  trackerOf w1 = trackerOf w.
Proof.
  intros Hf w1.
  assert (Hw1 : w1 = withData (Some (<[userId := userData]> (default ∅ (redisData w)))) w)
    by (subst w1; unfold exec; by rewrite (saveUser_ok w userId userData Hf)).
  split; [| split; [| split]].
  - rewrite Hw1. apply (getUser_found _ (<[userId := userData]> (default ∅ (redisData w))));
      [done | done | apply lookup_insert_eq].
  - intros other Hne. rewrite Hw1, profileOf_withData. by apply lookup_insert_ne.
  - unfold eval. rewrite (loadData_ok w Hf), Hw1, loadData_ok by done. done.
  - by rewrite Hw1.
Qed.

Lemma saveUser_getUser_round_trip_witness :
  redisFaults twelveLeft = [] ∧
  eval (getUser "U1") (exec (saveUser "U1" cabinetUser) twelveLeft) = cabinetUser.
Proof.
  split; [reflexivity |].
  destruct (saveUser_getUser_round_trip twelveLeft "U1" cabinetUser eq_refl) as (Hget & _).
  unfold eval. by rewrite Hget.
Defined.

(** ** What the store functions and the tracker leave alone *)

Lemma keepsTracker_ret {A} (a : A) : keepsTracker (ret a).
Proof. by intros w. Qed.

Lemma keepsTracker_bind {A B} (m : M A) (k : A → M B) :
  keepsTracker m → (∀ a, keepsTracker (k a)) → keepsTracker (bind m k).
Proof. intros Hm Hk w. rewrite exec_bind, Hk. apply Hm. Qed.

Lemma keepsTracker_loadData : keepsTracker loadData.
Proof. intros w. unfold exec. by rewrite loadData_cases. Qed.

Lemma keepsTracker_saveData data : keepsTracker (saveData data).
Proof. intros w. unfold exec. by rewrite saveData_cases. Qed.

Lemma keepsTracker_getUser userId : keepsTracker (getUser userId).
Proof.
  apply keepsTracker_bind; [apply keepsTracker_loadData |].
  intros data. destruct (data !! userId); [apply keepsTracker_ret |].
  apply keepsTracker_bind; [apply keepsTracker_saveData |].
  intros _. apply keepsTracker_ret.
Qed.

Lemma keepsTracker_saveUser userId userData : keepsTracker (saveUser userId userData).
Proof.
  apply keepsTracker_bind; [apply keepsTracker_loadData |].
  intros data. apply keepsTracker_saveData.
Qed.

Lemma keepsTracker_addMedicine userId medName total perDose slot :
  keepsTracker (addMedicine userId medName total perDose slot).
Proof.
  apply keepsTracker_bind; [apply keepsTracker_getUser |]. intros user.
  apply keepsTracker_bind; [by intros w |]. intros now.
  apply keepsTracker_bind; [apply keepsTracker_saveUser |]. intros _.
  apply keepsTracker_ret.
Qed.

Lemma keepsTracker_takeMedicine userId medicineId :
  keepsTracker (takeMedicine userId medicineId).
Proof.
  apply keepsTracker_bind; [apply keepsTracker_getUser |]. intros user.
  destruct (list_find _ _) as [[i medicine]|]; [| apply keepsTracker_ret].
  destruct (remainingPills medicine <? pillsPerDose medicine); [apply keepsTracker_ret |].
  cbv beta zeta. destruct (lowStockCheck _ _ _) as [alert ledger].
  apply keepsTracker_bind; [apply keepsTracker_saveUser |]. intros _.
  apply keepsTracker_ret.
Qed.

Lemma keepsTracker_refillMedicine userId medicineName amount :
  keepsTracker (refillMedicine userId medicineName amount).
Proof.
  apply keepsTracker_bind; [apply keepsTracker_getUser |]. intros user.
  destruct (list_find _ _) as [[i medicine]|]; [| apply keepsTracker_ret].
  apply keepsTracker_bind; [apply keepsTracker_saveUser |]. intros _.
  apply keepsTracker_ret.
Qed.

Lemma keepsTracker_deleteMedicine userId medicineName :
  keepsTracker (deleteMedicine userId medicineName).
Proof.
  apply keepsTracker_bind; [apply keepsTracker_getUser |]. intros user.
  destruct (list_find _ _) as [[i medicine]|]; [| apply keepsTracker_ret].
  apply keepsTracker_bind; [apply keepsTracker_saveUser |]. intros _.
  apply keepsTracker_ret.
Qed.

Lemma keepsTracker_setTime userId slot time : keepsTracker (setTime userId slot time).
Proof.
  apply keepsTracker_bind; [apply keepsTracker_getUser |]. intros user.
  apply keepsTracker_bind; [apply keepsTracker_saveUser |]. intros _.
  apply keepsTracker_ret.
Qed.


(** X3.  The medicine functions (add, take, refill, delete, set time) and the
    profile access never touch the reminder map, the queued callbacks or the
    clock, whichever Redis calls fail: a pending reminder is not cleared by
    taking a medicine by name, refilling or deleting it. *)
Theorem medicine_functions_keep_tracker
    (userId medName medicineId medicineName time : string)
    (total perDose slot amount : Z) (userData : UserProfile) :
  keepsTracker (getUser userId) ∧
  keepsTracker (saveUser userId userData) ∧
  keepsTracker (addMedicine userId medName total perDose slot) ∧
  keepsTracker (takeMedicine userId medicineId) ∧
  keepsTracker (refillMedicine userId medicineName amount) ∧
  keepsTracker (deleteMedicine userId medicineName) ∧
  keepsTracker (setTime userId slot time) ∧
  keepsTracker (handleTextMessage (CmdTakeName medicineName) userId userData) ∧
  keepsTracker (handleTextMessage (CmdRefill medicineName amount) userId userData) ∧
  keepsTracker (handleTextMessage (CmdDelete medicineName) userId userData).
Proof.
  repeat split.
  - apply keepsTracker_getUser.
  - apply keepsTracker_saveUser.
  - apply keepsTracker_addMedicine.
  - apply keepsTracker_takeMedicine.
  - apply keepsTracker_refillMedicine.
  - apply keepsTracker_deleteMedicine.
  - apply keepsTracker_setTime.
  - simpl. destruct (list_find _ _) as [[i medicine]|]; [| apply keepsTracker_ret].
    apply keepsTracker_bind; [apply keepsTracker_takeMedicine |].
    intros [message | medicine' alert]; apply keepsTracker_ret.
  - apply keepsTracker_bind; [apply keepsTracker_refillMedicine |].
    intros [message | medicine' alert]; apply keepsTracker_ret.
  - apply keepsTracker_bind; [apply keepsTracker_deleteMedicine |].
    intros [message | medicine' alert]; apply keepsTracker_ret.
Qed.

(** X4.  The tracker never touches the store: arming, reading and the expiry
    of a reminder leave the Redis value, the coming call outcomes and the
    error log as they are; arming or reading the reminder of one user leaves
    the entry of every other user as it is; and a read that returned an entry
    leaves the world as it is, so that a second read returns the same. *)
Theorem tracker_keeps_store_and_other_users (userId : string) (slot : Z) (w : World) :
  storeOf (exec (setPendingReminder userId slot) w) = storeOf w ∧
  storeOf (exec (getPendingReminder userId) w) = storeOf w ∧
  (∀ t, storeOf (advanceTo t w) = storeOf w) ∧
  (∀ other, other ≠ userId →
     pendingReminders (exec (setPendingReminder userId slot) w) !! other
     = pendingReminders w !! other ∧
     pendingReminders (exec (getPendingReminder userId) w) !! other
     = pendingReminders w !! other) ∧
  getPendingReminder userId (exec (getPendingReminder userId) w)
  = (eval (getPendingReminder userId) w, exec (getPendingReminder userId) w).
Proof.
  split; [done |]. split.
  { unfold exec, getPendingReminder. destruct (pendingReminders w !! userId) as [p|]; [| done].
    by destruct (THIRTY_MINUTES <? clock w - timestamp p). }
  split; [done |]. split.
  - intros other Hne. split; [by apply setPendingReminder_other |].
    unfold exec, getPendingReminder. destruct (pendingReminders w !! userId) as [p|]; [| done].
    destruct (THIRTY_MINUTES <? clock w - timestamp p); [| done].
    simpl. by apply lookup_delete_ne.
  - destruct (pendingReminders w !! userId) as [p|] eqn:Hp.
    + destruct (Z.le_gt_cases (clock w - timestamp p) THIRTY_MINUTES) as [Hle | Hgt].
      * unfold eval, exec. rewrite (getPendingReminder_fresh w userId p Hp Hle). simpl.
        by apply getPendingReminder_fresh.
      * unfold eval, exec. rewrite (getPendingReminder_stale w userId p Hp) by lia. simpl.
        apply getPendingReminder_absent. simpl. apply lookup_delete_eq.
    + unfold eval, exec. rewrite (getPendingReminder_absent w userId Hp). simpl.
      by apply getPendingReminder_absent.
Qed.

Lemma tracker_keeps_store_and_other_users_witness :
  "U2" ≠ "U1" ∧
  pendingReminders (exec (setPendingReminder "U1" 1) (advanceTo at0800 twoUsers)) !! "U2"
  = pendingReminders (advanceTo at0800 twoUsers) !! "U2" ∧
  storeOf (exec (setPendingReminder "U1" 1) (advanceTo at0800 twoUsers))
  = storeOf (advanceTo at0800 twoUsers).
Proof.
  assert (Hne : "U2" ≠ "U1") by done.
  destruct (tracker_keeps_store_and_other_users "U1" 1 (advanceTo at0800 twoUsers))
    as (Hstore & _ & _ & Hother & _).
  split; [exact Hne |]. split; [apply (Hother "U2" Hne) | exact Hstore].
Defined.

(** ** Acknowledgments *)



(** X6.  A sticker and the text "taken" are resolved alike: for a user whose
    pending entry, if any, holds a slot other than 0, both handlers leave the
    same world, and they give the same reply except when no slot is found,
    where the sticker is greeted and the text is asked which medicine. *)
Theorem sticker_and_text_acknowledge_alike
    (w : World) (userId : string) (user : UserProfile) :
  (∀ p, pendingReminders w !! userId = Some p → pendingSlot p ≠ 0) →
  exec (handleStickerMessage userId user) w
  = exec (handleTextMessage CmdTaken userId user) w ∧
  (eval (handleStickerMessage userId user) w
   = eval (handleTextMessage CmdTaken userId user) w ∨
   (eval (handleStickerMessage userId user) w = ReplyGreeting ∧
    eval (handleTextMessage CmdTaken userId user) w = ReplyWhichMedicine)).
Proof.
  intros Hslot.
  assert (Hpending : ∀ p, eval (getPendingReminder userId) w = Some p → pendingSlot p ≠ 0).
  { intros p Hp. apply Hslot. unfold eval, getPendingReminder in Hp.
    destruct (pendingReminders w !! userId) as [q|]; [| done].
    destruct (THIRTY_MINUTES <? clock w - timestamp q); [done |]. simpl in Hp. congruence. }
  unfold handleStickerMessage, handleTextMessage, bind, thaiHour, eval, exec in *.
  destruct (getPendingReminder userId w) as [[p|] w1]; simpl in *.
  - destruct (Z.eqb_spec (pendingSlot p) 0) as [Hz | _]; [by destruct (Hpending p) |].
    split; [done | by left].
  - destruct (slotFromClock _ (settings user)); [split; [done | by left] |].
    split; [done | by right].
Qed.

Lemma sticker_and_text_acknowledge_alike_witness :
  (∀ p, pendingReminders nineOClock !! "U1" = Some p → pendingSlot p ≠ 0) ∧
  exec (handleStickerMessage "U1" cabinetUser) nineOClock
  = exec (handleTextMessage CmdTaken "U1" cabinetUser) nineOClock.
Proof.
  assert (Hslot : ∀ p, pendingReminders nineOClock !! "U1" = Some p → pendingSlot p ≠ 0)
    by (intros p Hp; vm_compute in Hp; discriminate).
  split; [exact Hslot |].
  exact (proj1 (sticker_and_text_acknowledge_alike nineOClock "U1" cabinetUser Hslot)).
Defined.

(** ** Adding and deleting medicines *)

Lemma append_empty_r s : s +:+ EmptyString = s.
Proof.
  induction s as [|c s IH]; [done |].
  change (String c s +:+ EmptyString) with (String c (s +:+ EmptyString)). by rewrite IH.
Qed.

Lemma includes_refl s : includes s s = true.
Proof.
  apply includes_spec. exists EmptyString, EmptyString.
  change (EmptyString +:+ s +:+ EmptyString) with (s +:+ EmptyString).
  by rewrite append_empty_r.
Qed.

Lemma addMedicine_ok w data userId user medName total perDose slot :
  redisFaults w = [] → redisData w = Some data → data !! userId = Some user →
  let new := mkMedicine ("med_" +:+ pretty (clock w)) medName total total perDose slot
                        (clock w) in
  addMedicine userId medName total perDose slot w
  = (new, withData (Some (<[userId := mkUser (medicines user ++ [new]) (settings user)
                                             (alertedMedicines user)]> data)) w).
Proof.
  intros Hf Hd Hu new. unfold addMedicine, bind.
  rewrite (getUser_found w data userId user Hf Hd Hu). unfold dateNow.
  by rewrite (saveUser_ok w _ _ Hf), Hd.
Qed.

Lemma list_find_last {A} (P : A → Prop) `{∀ x, Decision (P x)} (l : list A) x :
  Forall (λ y, ¬ P y) l → P x → list_find P (l ++ [x]) = Some (length l, x).
Proof.
  intros Hnone Hx. apply list_find_Some. split; [| split; [done |]].
  - rewrite lookup_app_r by done. by rewrite Nat.sub_diag.
  - intros j y Hj Hlt. rewrite lookup_app_l in Hj by done.
    rewrite Forall_forall in Hnone. apply Hnone. apply list_elem_of_lookup. by exists j.
Qed.

Lemma delete_last {A} (l : list A) x : delete (length l) (l ++ [x]) = l.
Proof. induction l as [|y l IH]; [done |]. simpl. by rewrite IH. Qed.

(** X7.  In a store that answers, for names in ASCII and Thai script: adding
    a medicine whose name no stored medicine contains and deleting it again
    by that name gives back the profile as it was, apart from a ledger entry
    under the new identifier, which the deletion clears; the deletion removes
    the new medicine and no older one. *)
Theorem add_then_delete_restores_profile
    (w : World) (data : gmap string UserProfile) (userId : string) (user : UserProfile)
    (medName : string) (total perDose slot : Z) :
  redisFaults w = [] → redisData w = Some data → data !! userId = Some user →
  asciiOrThai medName → plainNames user →
  Forall (λ m, ¬ nameMatches medName m) (medicines user) →
  let added := eval (addMedicine userId medName total perDose slot) w in
  let w1 := exec (addMedicine userId medName total perDose slot) w in
  deleteMedicine userId medName w1
  = (Success added None,
     withData (Some (<[userId := clearAlert (id added) user]> data)) w) ∧
  medicines (clearAlert (id added) user) = medicines user ∧
  (alertedMedicines user !! id added = None →
   exec (deleteMedicine userId medName) w1 = w).
Proof.
  intros Hf Hd Hu _ _ Hnone added w1.
  pose proof (addMedicine_ok w data userId user medName total perDose slot Hf Hd Hu) as Hadd.
  simpl in Hadd. subst added w1. unfold eval, exec. rewrite Hadd. simpl.
  set (new := mkMedicine ("med_" +:+ pretty (clock w)) medName total total perDose slot
                         (clock w)).
  assert (Hfind : list_find (λ m, nameMatches medName m) (medicines user ++ [new])
                  = Some (length (medicines user), new)).
  { apply (list_find_last (λ m, Is_true (nameMatches medName m))); [done |].
    unfold nameMatches. simpl. by rewrite includes_refl. }
  erewrite deleteMedicine_success;
    [| done | done | apply lookup_insert_eq | exact Hfind].
  simpl. rewrite delete_last, insert_insert_eq.
  replace (set_medicines (medicines user)
             (mkUser (medicines user ++ [new]) (settings user) (alertedMedicines user)))
    with user by (by destruct user).
  split; [done |]. split.
  - unfold clearAlert. by destruct (jsTruthy _).
  - intros Hledger. unfold clearAlert. cbn [id new] in *. rewrite Hledger.
    cbn [jsTruthy snd]. rewrite insert_id by done.
    transitivity (withData (redisData w) w); [by rewrite Hd | apply withData_same].
Qed.

Lemma add_then_delete_restores_profile_witness :
  redisFaults twelveLeft = [] ∧
  asciiOrThai "Zinc" ∧ plainNames (mkUser [para 12] (mkSettings "08:00" "20:00") ∅) ∧
  Forall (λ m, ¬ nameMatches "Zinc" m) [para 12] ∧
  exec (deleteMedicine "U1" "Zinc") (exec (addMedicine "U1" "Zinc" 20 1 2) twelveLeft)
  = twelveLeft.
Proof.
  assert (Hnone : Forall (λ m, ¬ nameMatches "Zinc" m) [para 12])
    by (apply Forall_singleton; by vm_compute).
  assert (Hname : asciiOrThai "Zinc") by (by vm_compute).
  assert (Hplain : plainNames (mkUser [para 12] (mkSettings "08:00" "20:00") ∅))
    by (apply Forall_singleton; by vm_compute).
  split; [reflexivity |]. split; [exact Hname |]. split; [exact Hplain |].
  split; [exact Hnone |].
  destruct (add_then_delete_restores_profile twelveLeft
              {[ "U1" := mkUser [para 12] (mkSettings "08:00" "20:00") ∅ ]}
              "U1" (mkUser [para 12] (mkSettings "08:00" "20:00") ∅) "Zinc" 20 1 2
              ltac:(by vm_compute) ltac:(by vm_compute) ltac:(by vm_compute)
              Hname Hplain Hnone)
    as (_ & _ & Hback).
  apply Hback. by vm_compute.
Defined.

Lemma medicine_identifier_inj (a b : Z) :
  "med_" +:+ pretty a = "med_" +:+ pretty b → a = b.
Proof. intros Heq. apply (inj (String.app "med_")) in Heq. by apply (inj pretty) in Heq. Qed.

(** X8.  [addMedicine] names the medicine after the clock.  In a store that
    answers, for a profile whose identifiers were all made that way and are
    pairwise different, the identifiers after the call are pairwise different
    exactly when no stored medicine was created at the same millisecond. *)
Theorem addMedicine_identifiers_distinct
    (w : World) (data : gmap string UserProfile) (userId : string) (user : UserProfile)
    (medName : string) (total perDose slot : Z) :
  redisFaults w = [] → redisData w = Some data → data !! userId = Some user →
  idsFromClock user → NoDup (id <$> medicines user) →
  ∃ user1,
    profileOf userId (exec (addMedicine userId medName total perDose slot) w) = Some user1 ∧
    medicines user1
    = medicines user ++ [eval (addMedicine userId medName total perDose slot) w] ∧
    idsFromClock user1 ∧
    (NoDup (id <$> medicines user1)
     ↔ Forall (λ m, createdAt m ≠ clock w) (medicines user)).
Proof.
  intros Hf Hd Hu Hids Hnd.
  pose proof (addMedicine_ok w data userId user medName total perDose slot Hf Hd Hu) as Hadd.
  simpl in Hadd. unfold eval, exec. rewrite Hadd. simpl.
  eexists. split; [rewrite profileOf_withData; apply lookup_insert_eq |].
  split; [done |]. split.
  - unfold idsFromClock. simpl. apply Forall_app. split; [done |]. by apply Forall_singleton.
  - simpl. rewrite fmap_app, NoDup_app. simpl. rewrite Forall_forall. split.
    + intros (_ & Hfresh & _) m Hm Hsame. apply (Hfresh (id m)).
      * apply list_elem_of_fmap. by exists m.
      * apply list_elem_of_singleton.
        unfold idsFromClock in Hids. rewrite Forall_forall in Hids.
        rewrite (Hids m Hm). by rewrite Hsame.
    + intros Hfresh. split; [done |]. split; [| apply NoDup_singleton].
      intros x Hx Hnew. apply list_elem_of_fmap in Hx as (m & -> & Hm).
      apply list_elem_of_singleton in Hnew.
      unfold idsFromClock in Hids. rewrite Forall_forall in Hids.
      rewrite (Hids m Hm) in Hnew. apply medicine_identifier_inj in Hnew.
      by apply (Hfresh m Hm).
Qed.

Lemma addMedicine_identifiers_distinct_witness :
  let user := mkUser [para 12] (mkSettings "08:00" "20:00") ∅ in
  redisFaults twelveLeft = [] ∧ idsFromClock user ∧ NoDup (id <$> medicines user) ∧
  ∃ user1,
    profileOf "U1" (exec (addMedicine "U1" "Zinc" 20 1 2) (advanceTo 5 twelveLeft))
    = Some user1 ∧ NoDup (id <$> medicines user1).
Proof.
  intros user.
  assert (Hids : idsFromClock user) by (apply Forall_singleton; by vm_compute).
  assert (Hnd : NoDup (id <$> medicines user)) by (apply (bool_decide_unpack _); by vm_compute).
  split; [reflexivity |]. split; [exact Hids |]. split; [exact Hnd |].
  destruct (addMedicine_identifiers_distinct (advanceTo 5 twelveLeft) {[ "U1" := user ]}
              "U1" user "Zinc" 20 1 2
              ltac:(by vm_compute) ltac:(by vm_compute) ltac:(by vm_compute) Hids Hnd)
    as (user1 & Hprofile & _ & _ & Hdistinct).
  exists user1. split; [exact Hprofile |].
  apply Hdistinct. apply Forall_singleton. by vm_compute.
Defined.

Lemma NoDup_delete_lookup {A} (l : list A) i x :
  NoDup l → l !! i = Some x → x ∉ delete i l.
Proof.
  intros Hnd Hi. rewrite <- (take_drop_middle l i x Hi) in Hnd.
  rewrite delete_take_drop. apply NoDup_app in Hnd as (_ & Hleft & Hright).
  apply NoDup_cons in Hright as [Hright _].
  rewrite elem_of_app. intros [Hin | Hin]; [| done].
  apply (Hleft x Hin). by left.
Qed.

(** X9.  In a store that answers, for names in ASCII and Thai script and a
    profile with pairwise different identifiers, [deleteMedicine] removes the
    first medicine the name matches and keeps the others in their order; the
    profile is one medicine shorter, the ledger entry of the removed
    medicine, if it held a level, is gone, and taking the removed medicine by
    its identifier afterwards fails as not found and changes nothing. *)
Theorem deleted_medicine_is_gone
    (w : World) (data : gmap string UserProfile) (userId : string) (user : UserProfile)
    (medicineName : string) (i : nat) (target : Medicine) :
  redisFaults w = [] → redisData w = Some data → data !! userId = Some user →
  asciiOrThai medicineName → plainNames user →
  NoDup (id <$> medicines user) →
  list_find (λ m, nameMatches medicineName m) (medicines user) = Some (i, target) →
  let w1 := exec (deleteMedicine userId medicineName) w in
  ∃ user1,
    profileOf userId w1 = Some user1 ∧
    medicines user1 = delete i (medicines user) ∧
    length (medicines user1) = (length (medicines user) - 1)%nat ∧
    settings user1 = settings user ∧
    (ledger_wf (alertedMedicines user) →
     alertedMedicines user1 = delete (id target) (alertedMedicines user)) ∧
    takeMedicine userId (id target) w1 = (Failure "ไม่พบยาที่ระบุ", w1).
Proof.
  intros Hf Hd Hu _ _ Hnd Hfind w1.
  pose proof (deleteMedicine_success w data userId user medicineName i target
                Hf Hd Hu Hfind) as Hrun.
  assert (Hi : medicines user !! i = Some target) by (by apply list_find_Some in Hfind as (? & _)).
  set (user1 := clearAlert (id target) (set_medicines (delete i (medicines user)) user)).
  assert (Hw1 : w1 = withData (Some (<[userId := user1]> data)) w)
    by (subst w1; unfold exec; by rewrite Hrun).
  assert (Hmeds : medicines user1 = delete i (medicines user))
    by (subst user1; unfold clearAlert; by destruct (jsTruthy _)).
  exists user1. split; [rewrite Hw1, profileOf_withData; apply lookup_insert_eq |].
  split; [done |]. split; [rewrite Hmeds; by apply length_delete |].
  split; [subst user1; unfold clearAlert; by destruct (jsTruthy _) |].
  split; [intros Hwf; subst user1; by rewrite clearAlert_ledger_wf |].
  assert (Hgone : list_find (λ m, id m = id target) (medicines user1) = None).
  { apply list_find_None. rewrite Hmeds, Forall_forall. intros m Hm Hsame.
    apply (NoDup_delete_lookup (id <$> medicines user) i (id target) Hnd).
    - by rewrite list_lookup_fmap, Hi.
    - rewrite <- list_fmap_delete. apply list_elem_of_fmap. by exists m. }
  assert (Hget : getUser userId w1 = (user1, w1)).
  { rewrite Hw1. apply (getUser_found _ (<[userId := user1]> data));
      [done | done | apply lookup_insert_eq]. }
  rewrite takeMedicine_not_found; unfold eval, exec; rewrite Hget; done.
Qed.

Lemma deleted_medicine_is_gone_witness :
  redisFaults twoParas = [] ∧
  asciiOrThai "para" ∧
  plainNames (mkUser [paracetamol; paraForte] (mkSettings "08:00" "20:00") ∅) ∧
  NoDup (id <$> [paracetamol; paraForte]) ∧
  takeMedicine "U1" "med_0" (exec (deleteMedicine "U1" "para") twoParas)
  = (Failure "ไม่พบยาที่ระบุ", exec (deleteMedicine "U1" "para") twoParas).
Proof.
  assert (Hnd : NoDup (id <$> [paracetamol; paraForte]))
    by (apply (bool_decide_unpack _); by vm_compute).
  assert (Hname : asciiOrThai "para") by (by vm_compute).
  assert (Hplain : plainNames (mkUser [paracetamol; paraForte]
                                      (mkSettings "08:00" "20:00") ∅))
    by (apply (bool_decide_unpack _); by vm_compute).
  split; [reflexivity |]. split; [exact Hname |]. split; [exact Hplain |].
  split; [exact Hnd |].
  destruct (deleted_medicine_is_gone twoParas
              {[ "U1" := mkUser [paracetamol; paraForte] (mkSettings "08:00" "20:00") ∅ ]}
              "U1" (mkUser [paracetamol; paraForte] (mkSettings "08:00" "20:00") ∅)
              "para" 0%nat paracetamol
              ltac:(by vm_compute) ltac:(by vm_compute) ltac:(by vm_compute)
              Hname Hplain Hnd ltac:(by vm_compute))
    as (user1 & _ & _ & _ & _ & _ & Htake).
  exact Htake.
Defined.

(** ** Taking the same medicine again and again *)

Lemma list_find_insert_same_id (meds : list Medicine) medicineId i m m' :
  list_find (λ x, id x = medicineId) meds = Some (i, m) → id m' = medicineId →
  list_find (λ x, id x = medicineId) (<[i := m']> meds) = Some (i, m').
Proof.
  intros Hfind Hid. apply list_find_Some in Hfind as (Hi & _ & Hfirst).
  apply list_find_Some. split; [| split; [done |]].
  - apply list_lookup_insert_eq. by eapply lookup_lt_Some.
  - intros j y Hj Hlt. rewrite list_lookup_insert_ne in Hj by lia. by eapply Hfirst.
Qed.

Lemma set_remainingPills_same m : set_remainingPills (remainingPills m) m = m.
Proof. by destruct m. Qed.

Lemma doses_left_step r p :
  0 < p → p ≤ r → Z.to_nat (r / p) = S (Z.to_nat ((r - p) / p)).
Proof.
  intros Hp Hr. replace (r - p) with (r + (-1) * p) by lia.
  rewrite Z.div_add by lia.
  assert (1 ≤ r / p) by (apply Z.div_le_lower_bound; lia). lia.
Qed.

Lemma takeTimes_succ n userId medicineId w :
  takeTimes (S n) userId medicineId w
  = let '(result, w1) := takeMedicine userId medicineId w in
    let '(results, w2) := takeTimes n userId medicineId w1 in
    (result :: results, w2).
Proof.
  cbn [takeTimes]. unfold bind. destruct (takeMedicine userId medicineId w) as [result w1].
  by destruct (takeTimes n userId medicineId w1).
Qed.

Lemma takeTimes_run userId medicineId n : ∀ w data user i m,
  redisFaults w = [] → redisData w = Some data → data !! userId = Some user →
  list_find (λ x, id x = medicineId) (medicines user) = Some (i, m) →
  0 < pillsPerDose m → 0 ≤ remainingPills m →
  let doses := (n `min` Z.to_nat (remainingPills m / pillsPerDose m))%nat in
  ∃ ledger results,
    takeTimes n userId medicineId w
    = (results,
       withData
         (Some (<[userId :=
                    mkUser (<[i := set_remainingPills
                                     (remainingPills m - pillsPerDose m * Z.of_nat doses) m]>
                              (medicines user))
                           (settings user) ledger]> data)) w) ∧
    isSuccess <$> results = replicate doses true ++ replicate (n - doses) false.
Proof.
  induction n as [|n IH]; intros w data user i m Hf Hd Hu Hfind Hp Hr doses.
  - exists (alertedMedicines user), []. subst doses. simpl. split; [| done].
    rewrite Z.mul_0_r, Z.sub_0_r, set_remainingPills_same.
    apply list_find_Some in Hfind as (Hi & _).
    rewrite list_insert_id by done.
    replace (mkUser (medicines user) (settings user) (alertedMedicines user)) with user
      by (by destruct user).
    rewrite insert_id by done. rewrite <- Hd. unfold ret. f_equal.
    symmetry. apply withData_same.
  - rewrite takeTimes_succ.
    destruct (Z.lt_ge_cases (remainingPills m) (pillsPerDose m)) as [Hlt | Hge].
    + assert (Hget : getUser userId w = (user, w)) by (by eapply getUser_found).
      assert (Htake : takeMedicine userId medicineId w
                      = (Failure ("❌ ยา " +:+ name m +:+ " หมดแล้ว!"), w)).
      { rewrite (takeMedicine_insufficient w userId medicineId i m);
          [unfold exec; by rewrite Hget | unfold eval; by rewrite Hget | done]. }
      rewrite Htake.
      destruct (IH w data user i m Hf Hd Hu Hfind Hp Hr) as (ledger & results & Hrun & Hres).
      assert (Hzero : Z.to_nat (remainingPills m / pillsPerDose m) = 0%nat)
        by (rewrite Z.div_small by lia; done).
      subst doses. rewrite Hzero in *. rewrite Nat.min_0_r in *.
      exists ledger, (Failure ("❌ ยา " +:+ name m +:+ " หมดแล้ว!") :: results).
      rewrite Hrun. split; [done |].
      rewrite fmap_cons, Hres. simpl. by rewrite Nat.sub_0_r.
    + pose proof (takeMedicine_success w data userId user medicineId i m
                    Hf Hd Hu Hfind Hge) as Htake. cbn zeta in Htake.
      set (m1 := set_remainingPills (remainingPills m - pillsPerDose m) m) in *.
      set (check := lowStockCheck m1 medicineId (alertedMedicines user)) in *.
      set (user1 := mkUser (<[i := m1]> (medicines user)) (settings user) check.2) in *.
      rewrite Htake.
      assert (Hid : id m1 = medicineId) by (by apply list_find_Some in Hfind as (_ & ? & _)).
      destruct (IH (withData (Some (<[userId := user1]> data)) w) (<[userId := user1]> data)
                  user1 i m1 Hf eq_refl (lookup_insert_eq _ _ _)
                  (list_find_insert_same_id _ _ _ _ _ Hfind Hid) Hp
                  ltac:(subst m1; simpl; lia))
        as (ledger & results & Hrun & Hres).
      exists ledger, (Success m1 check.1 :: results). subst doses.
      rewrite (doses_left_step _ _ Hp Hge), <- Nat.succ_min_distr.
      rewrite Hrun. split.
      * cbn [medicines settings user1 remainingPills pillsPerDose m1 set_remainingPills].
        rewrite withData_withData, insert_insert_eq, list_insert_insert_eq.
        assert (Heq : ∀ a b, a = b → set_remainingPills a m1 = set_remainingPills b m)
          by (by intros a b ->).
        erewrite Heq; [done | lia].
      * rewrite fmap_cons, Hres. done.
Qed.

(** X10.  In a store that answers, for a medicine with a positive dose and a
    stock from 0 to [Number.MAX_SAFE_INTEGER] (where the subtractions are
    exact), [n] calls of [takeMedicine] in a row succeed exactly
    [min n (remaining / perDose)] times, all successes first; the stock ends
    at [remaining - perDose * successes], which is [remaining mod perDose]
    once the calls outnumber the doses; no other medicine changes. *)
Theorem takeMedicine_succeeds_while_doses_last
    (w : World) (data : gmap string UserProfile) (userId medicineId : string)
    (user : UserProfile) (i : nat) (m : Medicine) (n : nat) :
  redisFaults w = [] → redisData w = Some data → data !! userId = Some user →
  list_find (λ x, id x = medicineId) (medicines user) = Some (i, m) →
  0 < pillsPerDose m → 0 ≤ remainingPills m ≤ MAX_SAFE_INTEGER →
  let doses := (n `min` Z.to_nat (remainingPills m / pillsPerDose m))%nat in
  let left := remainingPills m - pillsPerDose m * Z.of_nat doses in
  (∃ ledger,
     exec (takeTimes n userId medicineId) w
     = withData (Some (<[userId := mkUser (<[i := set_remainingPills left m]> (medicines user))
                                          (settings user) ledger]> data)) w) ∧
  isSuccess <$> eval (takeTimes n userId medicineId) w
  = replicate doses true ++ replicate (n - doses) false ∧
  0 ≤ left ∧
  ((Z.to_nat (remainingPills m / pillsPerDose m) ≤ n)%nat →
   left = remainingPills m mod pillsPerDose m).
Proof.
  intros Hf Hd Hu Hfind Hp [Hr _] doses left.
  destruct (takeTimes_run userId medicineId n w data user i m Hf Hd Hu Hfind Hp Hr)
    as (ledger & results & Hrun & Hres).
  fold doses in Hrun, Hres. fold left in Hrun.
  assert (Hquot : 0 ≤ remainingPills m / pillsPerDose m) by (apply Z.div_pos; lia).
  assert (Hmod : remainingPills m mod pillsPerDose m
                 = remainingPills m - pillsPerDose m * (remainingPills m / pillsPerDose m))
    by (apply Z.mod_eq; lia).
  assert (Hbound : 0 ≤ remainingPills m mod pillsPerDose m) by (apply Z.mod_pos_bound; lia).
  split; [exists ledger; unfold exec; by rewrite Hrun |].
  split; [unfold eval; by rewrite Hrun |].
  split.
  - subst left doses.
    assert (Z.of_nat (n `min` Z.to_nat (remainingPills m / pillsPerDose m))
            ≤ remainingPills m / pillsPerDose m) by lia.
    nia.
  - intros Hmany. subst left doses. rewrite Nat.min_r by done. rewrite Z2Nat.id by done. lia.
Qed.

Lemma takeMedicine_succeeds_while_doses_last_witness :
  0 < pillsPerDose (para 12) ∧ 0 ≤ remainingPills (para 12) ≤ MAX_SAFE_INTEGER ∧
  isSuccess <$> eval (takeTimes 8 "U1" "med_0") twelveLeft
  = replicate 6 true ++ replicate 2 false.
Proof.
  split; [simpl; lia |]. split; [by vm_compute |].
  exact (proj1 (proj2 (takeMedicine_succeeds_while_doses_last twelveLeft
           {[ "U1" := mkUser [para 12] (mkSettings "08:00" "20:00") ∅ ]}
           "U1" "med_0" (mkUser [para 12] (mkSettings "08:00" "20:00") ∅) 0%nat (para 12) 8
           ltac:(by vm_compute) ltac:(by vm_compute) ltac:(by vm_compute)
           ltac:(by vm_compute) ltac:(simpl; lia) ltac:(by vm_compute)))).
Defined.

Lemma lowStockCheck_raises medicine key alerted :
  ledger_wf alerted →
  let old := default 0 (alerted !! key) in
  0 ≤ old ∧
  match (lowStockCheck medicine key alerted).1 with
  | Some alert =>
      alertMedicine alert = medicine ∧ old < alertNumber alert ≤ 2 ∧
      (lowStockCheck medicine key alerted).2 = <[key := alertNumber alert]> alerted
  | None => (lowStockCheck medicine key alerted).2 = alerted
  end.
Proof.
  intros Hwf old. subst old. unfold lowStockCheck.
  assert (Hentry : alerted !! key = None ∨ alerted !! key = Some 1 ∨ alerted !! key = Some 2).
  { destruct (alerted !! key) as [level|] eqn:He; [| by left].
    right. destruct (Hwf key level He) as [-> | ->]; auto. }
  destruct Hentry as [-> | [-> | ->]]; simpl;
    destruct (remainingPills medicine <=? 5), (remainingPills medicine <=? 10),
             (5 <? remainingPills medicine); simpl; repeat split; lia.
Qed.

Lemma sorted_between_length (l : list Z) : ∀ lo hi,
  StronglySorted Z.lt l → Forall (λ a, lo < a ≤ hi) l →
  (length l ≤ Z.to_nat (hi - lo))%nat.
Proof.
  induction l as [|a l IH]; intros lo hi Hsorted Hall; [simpl; lia |].
  apply StronglySorted_inv in Hsorted as [Hsorted Hhead].
  apply Forall_cons in Hall as [Ha Hall].
  assert (Htail : Forall (λ b, a < b ≤ hi) l).
  { rewrite Forall_forall in *. intros b Hb. specialize (Hhead b Hb). specialize (Hall b Hb).
    lia. }
  specialize (IH a hi Hsorted Htail). simpl. lia.
Qed.

Lemma takeTimes_alerts userId medicineId n : ∀ w data user i m,
  redisFaults w = [] → redisData w = Some data → data !! userId = Some user →
  list_find (λ x, id x = medicineId) (medicines user) = Some (i, m) →
  ledger_wf (alertedMedicines user) →
  let old := default 0 (alertedMedicines user !! medicineId) in
  StronglySorted Z.lt (alertNumbers (eval (takeTimes n userId medicineId) w)) ∧
  Forall (λ a, old < a ≤ 2) (alertNumbers (eval (takeTimes n userId medicineId) w)).
Proof.
  induction n as [|n IH]; intros w data user i m Hf Hd Hu Hfind Hwf old.
  - split; [apply SSorted_nil | apply Forall_nil_2].
  - unfold eval. rewrite takeTimes_succ.
    destruct (Z.lt_ge_cases (remainingPills m) (pillsPerDose m)) as [Hlt | Hge].
    + assert (Hget : getUser userId w = (user, w)) by (by eapply getUser_found).
      rewrite (takeMedicine_insufficient w userId medicineId i m);
        [| unfold eval; by rewrite Hget | done].
      unfold exec. rewrite Hget. cbn [snd].
      specialize (IH w data user i m Hf Hd Hu Hfind Hwf). unfold eval in IH.
      destruct (takeTimes n userId medicineId w) as [results w2]. exact IH.
    + rewrite (takeMedicine_success w data userId user medicineId i m Hf Hd Hu Hfind Hge).
      cbn zeta.
      set (m1 := set_remainingPills (remainingPills m - pillsPerDose m) m) in *.
      set (check := lowStockCheck m1 medicineId (alertedMedicines user)) in *.
      set (user1 := mkUser (<[i := m1]> (medicines user)) (settings user) check.2) in *.
      assert (Hid : id m1 = medicineId) by (by apply list_find_Some in Hfind as (_ & ? & _)).
      pose proof (lowStockCheck_raises m1 medicineId (alertedMedicines user) Hwf)
        as [Hold Hcheck]. fold check old in Hcheck, Hold.
      specialize (IH (withData (Some (<[userId := user1]> data)) w) (<[userId := user1]> data)
                    user1 i m1 Hf eq_refl (lookup_insert_eq _ _ _)
                    (list_find_insert_same_id _ _ _ _ _ Hfind Hid)
                    (lowStockCheck_wf _ _ _ Hwf)).
      unfold eval in IH. cbn [alertedMedicines user1] in IH.
      destruct (takeTimes n userId medicineId _) as [results w2]. cbn [fst] in *.
      destruct IH as [Hsorted Hall].
      unfold alertNumbers. cbn [omap list_omap]. fold (alertNumbers results).
      destruct check.1 as [alert|] eqn:Halert.
      * destruct Hcheck as (_ & Hlevel & Hledger). rewrite Hledger in Hall.
        rewrite lookup_insert_eq in Hall. cbn [default] in Hall.
        split.
        -- apply SSorted_cons; [done |]. eapply Forall_impl; [exact Hall |].
           intros a Ha. simpl in Ha. lia.
        -- apply Forall_cons. split; [done |]. eapply Forall_impl; [exact Hall |].
           intros a Ha. simpl in Ha. lia.
      * rewrite Hcheck in Hall. by split.
Qed.

(** X11.  In a store that answers, for a ledger that holds levels 1 and 2
    only, the alerts raised by any number of [takeMedicine] calls in a row for
    one medicine have strictly increasing numbers, each above the level the
    ledger held at the start: level 1 and level 2 are raised at most once
    each, at most two alerts in all, and none once the ledger holds 2. *)
Theorem alerts_rise_within_a_cycle
    (w : World) (data : gmap string UserProfile) (userId medicineId : string)
    (user : UserProfile) (i : nat) (m : Medicine) (n : nat) :
  redisFaults w = [] → redisData w = Some data → data !! userId = Some user →
  list_find (λ x, id x = medicineId) (medicines user) = Some (i, m) →
  ledger_wf (alertedMedicines user) →
  let numbers := alertNumbers (eval (takeTimes n userId medicineId) w) in
  let old := default 0 (alertedMedicines user !! medicineId) in
  StronglySorted Z.lt numbers ∧
  Forall (λ a, old < a ≤ 2) numbers ∧
  (length numbers ≤ 2)%nat ∧
  (alertedMedicines user !! medicineId = Some 2 → numbers = []).
Proof.
  intros Hf Hd Hu Hfind Hwf numbers old.
  destruct (takeTimes_alerts userId medicineId n w data user i m Hf Hd Hu Hfind Hwf)
    as [Hsorted Hall].
  fold numbers old in Hsorted, Hall.
  assert (Hold : 0 ≤ old)
    by apply (lowStockCheck_raises m medicineId (alertedMedicines user) Hwf).
  pose proof (sorted_between_length numbers old 2 Hsorted Hall) as Hlen.
  split; [done |]. split; [done |]. split; [lia |].
  intros Htwo. subst old. rewrite Htwo in Hlen. simpl in Hlen.
  destruct numbers; [done | simpl in Hlen; lia].
Qed.

Lemma alerts_rise_within_a_cycle_witness :
  ledger_wf (alertedMedicines (mkUser [para 12] (mkSettings "08:00" "20:00") ∅)) ∧
  alertNumbers (eval (takeTimes 8 "U1" "med_0") twelveLeft) = [1; 2] ∧
  (length (alertNumbers (eval (takeTimes 8 "U1" "med_0") twelveLeft)) ≤ 2)%nat.
Proof.
  assert (Hwf : ledger_wf (alertedMedicines (mkUser [para 12] (mkSettings "08:00" "20:00") ∅)))
    by apply map_Forall_empty.
  split; [exact Hwf |]. split; [by vm_compute |].
  exact (proj1 (proj2 (proj2 (alerts_rise_within_a_cycle twelveLeft
           {[ "U1" := mkUser [para 12] (mkSettings "08:00" "20:00") ∅ ]}
           "U1" "med_0" (mkUser [para 12] (mkSettings "08:00" "20:00") ∅) 0%nat (para 12) 8
           ltac:(by vm_compute) ltac:(by vm_compute) ltac:(by vm_compute)
           ltac:(by vm_compute) Hwf)))).
Defined.

(** ** Reminder times *)

Lemma hourOf_clock_string (k : nat) rest :
  (k < 24)%nat →
  hourOf (padStart2 (pretty (Z.of_nat k)) +:+ ":" +:+ rest) = Some (Z.of_nat k).
Proof. intros Hk. do 24 (destruct k as [|k]; [reflexivity |]). lia. Qed.

Lemma hourOf_currentTime w :
  hourOf (eval currentTime w) = Some (eval thaiHour w) ∧ 0 ≤ eval thaiHour w < 24.
Proof.
  unfold eval, currentTime, thaiHour. cbn [fst].
  assert (Hrange : 0 ≤ (clock w / 3600000 + 7) mod 24 < 24) by (apply Z.mod_pos_bound; lia).
  split; [| done].
  rewrite <- (Z2Nat.id ((clock w / 3600000 + 7) mod 24)) by lia.
  apply hourOf_clock_string. lia.
Qed.

(** X12.  The clock string that [sendReminders] compares with the stored
    times and the hour that the handlers compare with them agree: the hour
    read back from "HH:MM" of now is the current Bangkok hour.  So at the
    minute a reminder of slot 1 is due the clock fallback resolves slot 1, and
    at the minute a reminder of slot 2 is due it resolves slot 1 or slot 2,
    never nothing. *)
Theorem due_time_is_inside_the_window (w : World) (s : Settings) :
  hourOf (eval currentTime w) = Some (eval thaiHour w) ∧
  (eval currentTime w = time1 s → slotFromClock (eval thaiHour w) s = Some 1) ∧
  (eval currentTime w = time2 s →
   slotFromClock (eval thaiHour w) s = Some 1 ∨ slotFromClock (eval thaiHour w) s = Some 2).
Proof.
  destruct (hourOf_currentTime w) as [Hhour _].
  assert (Hnear : withinTwoHours (eval thaiHour w) (Some (eval thaiHour w)) = true).
  { simpl. rewrite Z.sub_diag. done. }
  split; [done |]. split.
  - intros Hdue. unfold slotFromClock. by rewrite <- Hdue, Hhour, Hnear.
  - intros Hdue. unfold slotFromClock.
    destruct (withinTwoHours (eval thaiHour w) (hourOf (time1 s))); [by left |].
    right. by rewrite <- Hdue, Hhour, Hnear.
Qed.

Lemma due_time_is_inside_the_window_witness :
  eval currentTime (advanceTo at0800 twelveLeft) = time1 (mkSettings "08:00" "20:00") ∧
  slotFromClock (eval thaiHour (advanceTo at0800 twelveLeft)) (mkSettings "08:00" "20:00")
  = Some 1.
Proof.
  assert (Hdue : eval currentTime (advanceTo at0800 twelveLeft)
                 = time1 (mkSettings "08:00" "20:00")) by (by vm_compute).
  split; [exact Hdue |].
  by apply (due_time_is_inside_the_window (advanceTo at0800 twelveLeft)
              (mkSettings "08:00" "20:00")).
Defined.

Lemma digit_is_not_colon c : is_Some (digitValue c) → (Ascii.nat_of_ascii c =? 58)%nat = false.
Proof.
  unfold digitValue. intros [d Hd].
  destruct ((48 <=? Ascii.nat_of_ascii c)%nat && (Ascii.nat_of_ascii c <=? 57)%nat) eqn:Hc;
    [| done].
  apply andb_true_iff in Hc as [_ Hle]. apply Nat.leb_le in Hle.
  apply Nat.eqb_neq. lia.
Qed.

Lemma beforeColon_digits s rest :
  allDigits s = true → beforeColon (s +:+ ":" +:+ rest) = s.
Proof.
  induction s as [|c s IH]; intros Hs.
  - reflexivity.
  - simpl in Hs. apply andb_true_iff in Hs as [Hc Hs]. apply bool_decide_eq_true in Hc.
    change (String c s +:+ ":" +:+ rest) with (String c (s +:+ ":" +:+ rest)).
    cbn [beforeColon]. rewrite (digit_is_not_colon c Hc). by rewrite IH.
Qed.

Lemma parseInt_padStart2 hour :
  allDigits hour = true → (1 ≤ String.length hour ≤ 2)%nat →
  parseInt (padStart2 hour) = parseInt hour ∧ ∃ h, parseInt hour = Some h ∧ 0 ≤ h < 100.
Proof.
  intros Hd Hlen. destruct hour as [|a [|b [|c rest]]]; simpl in Hlen; try lia.
  - simpl in Hd. rewrite andb_true_r in Hd. apply bool_decide_eq_true in Hd as [d Ha].
    unfold padStart2, parseInt. simpl. rewrite Ha. split; [done |].
    exists d. split; [f_equal; lia |].
    unfold digitValue in Ha. destruct (_ && _) eqn:Hc; [| done].
    apply andb_true_iff in Hc as [H1 H2]. apply Nat.leb_le in H1, H2.
    injection Ha as <-. lia.
  - simpl in Hd. rewrite andb_true_r in Hd. apply andb_true_iff in Hd as [Ha Hb].
    apply bool_decide_eq_true in Ha as [d Ha]. apply bool_decide_eq_true in Hb as [e Hb].
    split; [done |]. unfold parseInt. simpl. rewrite Ha, Hb. simpl.
    exists (10 * (10 * 0 + d) + e). split; [done |].
    unfold digitValue in Ha, Hb.
    destruct ((48 <=? Ascii.nat_of_ascii a)%nat && _) eqn:Hca; [| done].
    destruct ((48 <=? Ascii.nat_of_ascii b)%nat && _) eqn:Hcb; [| done].
    apply andb_true_iff in Hca as [H1 H2]. apply Nat.leb_le in H1, H2.
    apply andb_true_iff in Hcb as [H3 H4]. apply Nat.leb_le in H3, H4.
    injection Ha as <-. injection Hb as <-. lia.
Qed.

Lemma allDigits_padStart2 hour :
  allDigits hour = true → allDigits (padStart2 hour) = true.
Proof.
  intros Hd. unfold padStart2. destruct (String.length hour) as [|[|n]]; [done | | done].
  change ("0" +:+ hour) with (String (Ascii.ascii_of_nat 48) hour). by simpl.
Qed.

Lemma hourOf_typed_time hour minute :
  allDigits hour = true → (1 ≤ String.length hour ≤ 2)%nat →
  hourOf (padStart2 hour +:+ ":" +:+ minute) = parseInt hour.
Proof.
  intros Hd Hlen. unfold hourOf.
  rewrite beforeColon_digits by (by apply allDigits_padStart2).
  by apply parseInt_padStart2.
Qed.

Lemma setTime_ok w data userId user slot time :
  redisFaults w = [] → redisData w = Some data → data !! userId = Some user →
  let newSettings :=
    if slot =? 1 then mkSettings time (time2 (settings user))
    else mkSettings (time1 (settings user)) time in
  setTime userId slot time w
  = (newSettings,
     withData (Some (<[userId := mkUser (medicines user) newSettings
                                        (alertedMedicines user)]> data)) w).
Proof.
  intros Hf Hd Hu newSettings. unfold setTime, bind.
  rewrite (getUser_found w data userId user Hf Hd Hu).
  rewrite (saveUser_ok w _ _ Hf), Hd. subst newSettings. by destruct (slot =? 1).
Qed.

(** X13.  In a store that answers, the set-time command with an hour of one
    or two digits stores "HH:MM" with the hour padded to two digits as the
    time of slot 1 when the slot is 1 and as the time of slot 2 otherwise; the
    other time, the medicines and the ledger stay; and the hour the handlers
    later read back from the stored time is the number that was typed. *)
Theorem set_time_command_round_trip
    (w : World) (data : gmap string UserProfile) (userId : string) (user : UserProfile)
    (slot : Z) (hour minute : string) :
  redisFaults w = [] → redisData w = Some data → data !! userId = Some user →
  allDigits hour = true → (1 ≤ String.length hour ≤ 2)%nat →
  let timeStr := padStart2 hour +:+ ":" +:+ minute in
  let newSettings :=
    if slot =? 1 then mkSettings timeStr (time2 (settings user))
    else mkSettings (time1 (settings user)) timeStr in
  handleTextMessage (CmdSetTime slot hour minute) userId user w
  = (ReplyTimeSet slot timeStr newSettings,
     withData (Some (<[userId := mkUser (medicines user) newSettings
                                        (alertedMedicines user)]> data)) w) ∧
  hourOf timeStr = parseInt hour ∧
  ∃ h, parseInt hour = Some h ∧ 0 ≤ h < 100.
Proof.
  intros Hf Hd Hu Hdigits Hlen timeStr newSettings.
  split; [| split; [by apply hourOf_typed_time | by apply parseInt_padStart2]].
  cbn [handleTextMessage]. unfold bind. fold timeStr.
  rewrite (setTime_ok w data userId user slot timeStr Hf Hd Hu). cbn zeta. fold newSettings.
  cbn [fst snd].
  erewrite getUser_found; [| done | reflexivity | apply lookup_insert_eq].
  reflexivity.
Qed.

Lemma set_time_command_round_trip_witness :
  allDigits "8" = true ∧ (1 ≤ String.length "8" ≤ 2)%nat ∧
  eval (handleTextMessage (CmdSetTime 2 "8" "10") "U1"
          (mkUser [para 12] (mkSettings "08:00" "20:00") ∅)) twelveLeft
  = ReplyTimeSet 2 "08:10" (mkSettings "08:00" "08:10") ∧
  hourOf "08:10" = Some 8.
Proof.
  split; [reflexivity |]. split; [simpl; lia |].
  destruct (set_time_command_round_trip twelveLeft
              {[ "U1" := mkUser [para 12] (mkSettings "08:00" "20:00") ∅ ]}
              "U1" (mkUser [para 12] (mkSettings "08:00" "20:00") ∅) 2 "8" "10"
              ltac:(by vm_compute) ltac:(by vm_compute) ltac:(by vm_compute)
              eq_refl ltac:(simpl; lia)) as (Hrun & Hhour & _).
  split; [unfold eval; by rewrite Hrun | exact Hhour].
Defined.

(** X14.  The set-time command takes any two digits as the hour.  A time
    whose hour is typed as 24 or more is stored, and then never equals the
    clock string of [sendReminders]: the reminder of that slot is never due,
    at no instant, and [remindUser] does nothing for that user. *)
Theorem hour_past_the_day_never_fires
    (hour minute : string) (h slot : Z) (userId : string) (user : UserProfile) (w : World) :
  allDigits hour = true → (1 ≤ String.length hour ≤ 2)%nat →
  parseInt hour = Some h → 24 ≤ h →
  (if slot =? 1 then time1 (settings user) else time2 (settings user))
  = padStart2 hour +:+ ":" +:+ minute →
  eval currentTime w ≠ padStart2 hour +:+ ":" +:+ minute ∧
  ¬ reminderDue slot (eval currentTime w) user ∧
  remindUser slot (userId, user) w = (tt, w).
Proof.
  intros Hdigits Hlen Hh Hlate Htarget.
  assert (Hnever : eval currentTime w ≠ padStart2 hour +:+ ":" +:+ minute).
  { intros Hsame. destruct (hourOf_currentTime w) as [Hnow Hrange].
    rewrite Hsame, (hourOf_typed_time hour minute Hdigits Hlen), Hh in Hnow.
    injection Hnow as Hnow. lia. }
  split; [done |]. split.
  - intros [Hdue _]. by rewrite Htarget in Hdue.
  - unfold remindUser, bind. rewrite Htarget.
    change (currentTime w) with (eval currentTime w, w). cbn [fst snd].
    by rewrite decide_False.
Qed.

Lemma hour_past_the_day_never_fires_witness :
  allDigits "25" = true ∧ (1 ≤ String.length "25" ≤ 2)%nat ∧
  parseInt "25" = Some 25 ∧
  remindUser 1 ("U1", mkUser [para 12] (mkSettings "25:00" "20:00") ∅) twelveLeft
  = (tt, twelveLeft).
Proof.
  split; [reflexivity |]. split; [simpl; lia |]. split; [reflexivity |].
  by apply (hour_past_the_day_never_fires "25" "00" 25 1 "U1"
              (mkUser [para 12] (mkSettings "25:00" "20:00") ∅) twelveLeft
              eq_refl ltac:(simpl; lia) eq_refl ltac:(lia) eq_refl).
Defined.

(** ** The reminder job *)

Lemma pushMessage_cases userId w :
  (pushMessage userId w).1 = pushFails userId w ∧
  storeOf (exec (pushMessage userId) w) = storeOf w ∧
  trackerOf (exec (pushMessage userId) w) = trackerOf w ∧
  ∀ other, other ≠ userId →
           pushFails other (exec (pushMessage userId) w) = pushFails other w.
Proof.
  unfold pushMessage, pushFails, exec.
  destruct (pushFaults w !! userId) as [[|failed rest]|]; try done.
  repeat split. intros other Hne. cbn. by rewrite lookup_insert_ne.
Qed.

Lemma remindUser_cases slot userId user w :
  remindUser slot (userId, user) w
  = if decide (reminderDue slot (eval currentTime w) user)
    then
      let w0 := exec (pushMessage userId) w in
      if pushFails userId w
      then (tt, withErrors
                  (consoleErrors w ++ ["❌ Failed to send reminder to " +:+ userId +:+ ":"]) w0)
      else setPendingReminder userId slot w0
    else (tt, w).
Proof.
  unfold remindUser, bind. change (currentTime w) with (eval currentTime w, w).
  cbn [fst snd].
  destruct (decide (reminderDue slot (eval currentTime w) user)) as [[Hnow Hdue] | Hno].
  - rewrite decide_True by done.
    destruct (filter _ (medicines user)); [done |].
    destruct (pushMessage_cases userId w) as (Hfail & Hstore & _).
    unfold exec in *. destruct (pushMessage userId w) as [failed w0]. cbn [fst snd] in *.
    subst failed. destruct (pushFails userId w); [| done].
    unfold consoleError. unfold storeOf in Hstore. injection Hstore as _ _ Hlog.
    by rewrite Hlog.
  - destruct (decide (eval currentTime w
                      = (if slot =? 1 then time1 (settings user) else time2 (settings user))))
      as [Hnow | Hnow]; [| done].
    destruct (filter _ (medicines user)) as [|m rest] eqn:Hdue; [done |].
    destruct Hno. split; [done |]. by rewrite Hdue.
Qed.

Lemma filter_ext_elem {A} (P Q : A → Prop) `{∀ x, Decision (P x)} `{∀ x, Decision (Q x)}
    (l : list A) :
  (∀ x, x ∈ l → P x ↔ Q x) → filter P l = filter Q l.
Proof.
  induction l as [|x l IH]; intros Hext; [done |].
  rewrite !filter_cons. rewrite IH by (intros y Hy; apply Hext; by right).
  destruct (decide (P x)) as [HP | HP], (decide (Q x)) as [HQ | HQ]; try done.
  - destruct HQ. apply Hext; [by left | done].
  - destruct HP. apply Hext; [by left | done].
Qed.

Lemma forEach_remindUser slot (entries : list (string * UserProfile)) : ∀ w,
  NoDup entries.*1 →
  let w1 := exec (forEach (remindUser slot) entries) w in
  let failed :=
    filter (λ entry, reminderDue slot (eval currentTime w) entry.2 ∧ pushFails entry.1 w)
           entries in
  redisData w1 = redisData w ∧ clock w1 = clock w ∧
  consoleErrors w1 = consoleErrors w ++ (failedPushLine <$> failed.*1) ∧
  (∀ userId, userId ∉ entries.*1 → pushFails userId w1 = pushFails userId w) ∧
  ∀ userId,
    pendingReminders w1 !! userId
    = match (list_to_map entries : gmap string UserProfile) !! userId with
      | Some user =>
          if decide (reminderDue slot (eval currentTime w) user ∧ ¬ pushFails userId w)
          then Some (mkPending slot (clock w)) else pendingReminders w !! userId
      | None => pendingReminders w !! userId
      end.
Proof.
  induction entries as [|[u0 user0] rest IH]; intros w Hnd w1 failed.
  - subst w1 failed. cbn. rewrite app_nil_r. repeat split; try done.
  - rewrite fmap_cons in Hnd. apply NoDup_cons in Hnd as [Hfresh Hnd].
    subst w1. cbn [forEach]. rewrite exec_bind.
    set (w0 := exec (remindUser slot (u0, user0)) w).
    assert (Hw0 : redisData w0 = redisData w ∧ clock w0 = clock w ∧
                  consoleErrors w0
                  = consoleErrors w
                    ++ (if decide (reminderDue slot (eval currentTime w) user0 ∧
                                   pushFails u0 w)
                        then [failedPushLine u0] else []) ∧
                  (∀ userId, userId ≠ u0 → pushFails userId w0 = pushFails userId w) ∧
                  ∀ userId, pendingReminders w0 !! userId
                            = if decide (userId = u0 ∧
                                         reminderDue slot (eval currentTime w) user0 ∧
                                         ¬ pushFails u0 w)
                              then Some (mkPending slot (clock w))
                              else pendingReminders w !! userId).
    { subst w0. destruct (pushMessage_cases u0 w) as (_ & Hstore & Htracker & Hothers).
      unfold exec. rewrite remindUser_cases. fold (exec (pushMessage u0) w) in *.
      set (w' := exec (pushMessage u0) w) in *. clearbody w'.
      unfold storeOf in Hstore. unfold trackerOf in Htracker.
      injection Hstore as Hd Hf Hlog. injection Htracker as Hp Ht Hc.
      destruct (decide (reminderDue slot (eval currentTime w) user0)) as [Hdue | Hno].
      - cbv zeta. destruct (pushFails u0 w) eqn:Hfail; cbn [snd].
        + rewrite decide_True by done.
          split; [exact Hd |]. split; [exact Hc |]. split; [reflexivity |].
          split; [exact Hothers |].
          intros userId. rewrite decide_False; [| by intros (_ & _ & ?)].
          change (pendingReminders w' !! userId = pendingReminders w !! userId).
          by rewrite Hp.
        + rewrite decide_False by (by intros [_ ?]). rewrite app_nil_r.
          split; [exact Hd |]. split; [exact Hc |]. split; [exact Hlog |].
          split; [exact Hothers |].
          intros userId.
          change (<[u0 := mkPending slot (clock w')]> (pendingReminders w') !! userId
                  = if decide (userId = u0 ∧ reminderDue slot (eval currentTime w) user0 ∧
                               ¬ false)
                    then Some (mkPending slot (clock w)) else pendingReminders w !! userId).
          rewrite Hp, Hc.
          destruct (decide (userId = u0)) as [-> | Hne].
          * rewrite lookup_insert_eq. by rewrite decide_True by naive_solver.
          * rewrite lookup_insert_ne by done.
            rewrite decide_False; [done | by intros [? _]].
      - cbn [snd]. rewrite decide_False by (by intros [? _]). rewrite app_nil_r.
        repeat split. intros userId. rewrite decide_False; [done | by intros (_ & ? & _)]. }
    destruct Hw0 as (Hdata & Hclock & Hlog & Hfails & Hpending).
    assert (Hnow : eval currentTime w0 = eval currentTime w)
      by (unfold eval, currentTime; cbn [fst]; by rewrite Hclock).
    destruct (IH w0 Hnd) as (Hdata1 & Hclock1 & Hlog1 & Hfails1 & Hpending1).
    rewrite Hnow in Hlog1, Hpending1.
    assert (Hrest : ∀ entry, entry ∈ rest → pushFails entry.1 w0 = pushFails entry.1 w).
    { intros [u user] Hin. cbn [fst]. apply Hfails. intros ->. apply Hfresh.
      apply list_elem_of_fmap. by exists (u0, user). }
    split; [by rewrite Hdata1 |]. split; [by rewrite Hclock1 |].
    split.
    { rewrite Hlog1, Hlog, <- app_assoc. f_equal. subst failed.
      rewrite filter_cons. cbn [fst snd].
      assert (Hsame : filter (λ entry, reminderDue slot (eval currentTime w) entry.2 ∧
                                       pushFails entry.1 w0) rest
                      = filter (λ entry, reminderDue slot (eval currentTime w) entry.2 ∧
                                         pushFails entry.1 w) rest).
      { apply filter_ext_elem. intros entry Hin. by rewrite (Hrest entry Hin). }
      rewrite Hsame.
      by destruct (decide (reminderDue slot (eval currentTime w) user0 ∧ pushFails u0 w)). }
    split.
    { intros userId Hout. apply not_elem_of_cons in Hout as [Hne Hout].
      rewrite Hfails1 by done. by apply Hfails. }
    intros userId. rewrite Hpending1, Hclock, Hpending. cbn [list_to_map foldr fst snd].
    destruct (decide (userId = u0)) as [-> | Hne].
    + rewrite lookup_insert_eq.
      rewrite (not_elem_of_list_to_map_1 rest u0 Hfresh).
      destruct (decide (reminderDue slot (eval currentTime w) user0 ∧ ¬ pushFails u0 w))
        as [Hdue | Hno].
      * rewrite decide_True; [done | by destruct Hdue].
      * rewrite decide_False; [done |]. intros (_ & ? & ?). by apply Hno.
    + rewrite lookup_insert_ne by done.
      rewrite (decide_False (P := (userId = u0 ∧ _))) by (by intros [? _]).
      destruct (list_to_map rest !! userId) as [user|] eqn:Hu; [| done].
      assert (Hin : (userId, user) ∈ rest) by (by apply elem_of_list_to_map).
      pose proof (Hrest _ Hin) as Hsame. cbn [fst] in Hsame. by rewrite Hsame.
Qed.

(** X15.  [sendReminders] pushes to the users of the loaded data for whom the
    reminder of the slot is due (the clock string equals the stored time of
    the slot and a medicine of the slot has stock).  Such a user is armed,
    with the slot and the current time, exactly when the push returned; when
    it threw, the user is left as before and the [catch] logs one line.
    Every other entry of the reminder map stays, the stored data and the
    clock stay, and when the read fails nobody is reminded. *)
Theorem sendReminders_arms_due_users (w : World) (slot : Z) :
  let data := eval loadData w in
  let w1 := exec (sendReminders slot) w in
  redisData w1 = redisData w ∧ clock w1 = clock w ∧
  (∀ userId,
     pendingReminders w1 !! userId
     = match data !! userId with
       | Some user =>
           if decide (reminderDue slot (eval currentTime w) user ∧ ¬ pushFails userId w)
           then Some (mkPending slot (clock w)) else pendingReminders w !! userId
       | None => pendingReminders w !! userId
       end) ∧
  (∃ lines,
     consoleErrors w1 = consoleErrors (exec loadData w) ++ lines ∧
     lines ≡ₚ failedPushLine
              <$> (filter (λ entry, reminderDue slot (eval currentTime w) entry.2 ∧
                                    pushFails entry.1 w)
                          (map_to_list data)).*1) ∧
  (callFails 0 w = true → pendingReminders w1 = pendingReminders w).
Proof.
  intros data w1. subst w1. unfold sendReminders. rewrite exec_bind. fold data.
  set (w0 := exec loadData w).
  assert (Hw0 : redisData w0 = redisData w ∧ trackerOf w0 = trackerOf w ∧
                pushFaults w0 = pushFaults w).
  { subst w0. unfold exec. rewrite loadData_cases. by destruct (callFails 0 w). }
  destruct Hw0 as (Hdata & Htracker & Hpush). unfold trackerOf in Htracker.
  injection Htracker as Hp Ht Hc.
  assert (Hnow : eval currentTime w0 = eval currentTime w)
    by (unfold eval, currentTime; cbn [fst]; by rewrite Hc).
  assert (Hfails : ∀ userId, pushFails userId w0 = pushFails userId w)
    by (intros userId; unfold pushFails; by rewrite Hpush).
  destruct (forEach_remindUser slot (map_to_list data) w0 (NoDup_fst_map_to_list data))
    as (Hd1 & Hclock & Hlog & _ & Hpending).
  rewrite Hnow in Hlog, Hpending.
  assert (Hall : ∀ userId,
     pendingReminders (exec (forEach (remindUser slot) (map_to_list data)) w0) !! userId
     = match data !! userId with
       | Some user =>
           if decide (reminderDue slot (eval currentTime w) user ∧ ¬ pushFails userId w)
           then Some (mkPending slot (clock w)) else pendingReminders w !! userId
       | None => pendingReminders w !! userId
       end).
  { intros userId. by rewrite Hpending, list_to_map_to_list, Hfails, Hc, Hp. }
  split; [by rewrite Hd1 |]. split; [by rewrite Hclock |]. split; [exact Hall |].
  split.
  { eexists. split; [exact Hlog |].
    erewrite (filter_ext_elem _ _ (map_to_list data)); [done |].
    intros entry _. by rewrite Hfails. }
  intros Hfail. apply map_eq. intros userId. rewrite Hall.
  assert (Hempty : data = ∅).
  { subst data. unfold eval. rewrite loadData_cases. cbn [fst]. by rewrite Hfail. }
  by rewrite Hempty, lookup_empty.
Qed.

Lemma sendReminders_arms_due_users_witness :
  callFails 0 (withFaults [true] twoUsersAt0800) = true ∧
  pendingReminders (exec (sendReminders 1) (withFaults [true] twoUsersAt0800))
  = pendingReminders twoUsersAt0800 ∧
  pendingReminders (exec (sendReminders 1) twoUsersAt0800) !! "U1"
  = Some (mkPending 1 at0800) ∧
  pendingReminders
    (exec (sendReminders 1) (withPushFaults {[ "U1" := [true] ]} twoUsersAt0800)) !! "U1"
  = None.
Proof.
  split; [reflexivity |]. split.
  - by apply (sendReminders_arms_due_users (withFaults [true] twoUsersAt0800) 1).
  - split.
    + destruct (sendReminders_arms_due_users twoUsersAt0800 1) as (_ & _ & Hall & _).
      rewrite Hall. by vm_compute.
    + destruct (sendReminders_arms_due_users
                  (withPushFaults {[ "U1" := [true] ]} twoUsersAt0800) 1)
        as (_ & _ & Hall & _).
      rewrite Hall. by vm_compute.
Defined.

(** ** The reminder window *)

(** X16.  For a user with no callback of an earlier reminder still queued, a
    reminder armed at [T] is returned by [getPendingReminder] at every later
    instant before [T + 30 min] and at none after it.  At the instant
    [T + 30 min] itself the answer depends on the order of the event loop: a
    read that runs before the expiry callback returns the entry, a read that
    runs after it finds none. *)
Theorem reminder_window_ends_at_thirty_minutes
    (w : World) (userId : string) (slot t : Z) :
  userId ∉ (timers w).*2 → clock w ≤ t →
  let armed := exec (setPendingReminder userId slot) w in
  let deadline := clock w + 30 * 60 * 1000 in
  eval (getPendingReminder userId) (advanceTo t armed)
  = (if decide (t < deadline) then Some (mkPending slot (clock w)) else None) ∧
  eval (getPendingReminder userId) (advanceBefore t armed)
  = (if decide (t ≤ deadline) then Some (mkPending slot (clock w)) else None).
Proof.
  intros Hfresh Hlater armed deadline.
  assert (Hold : ∀ (P : Z * string → Prop) `{∀ x, Decision (P x)},
            userId ∉ (filter P (timers w)).*2).
  { intros P HP Hin. apply Hfresh. apply list_elem_of_fmap in Hin as [[d u] [-> Hin]].
    apply list_elem_of_filter in Hin as [_ Hin]. apply list_elem_of_fmap. by exists (d, u). }
  split.
  - assert (Hlookup : pendingReminders (advanceTo t armed) !! userId
                      = if decide (t < deadline)
                        then Some (mkPending slot (clock w)) else None).
    { unfold advanceTo. simpl. rewrite fireTimers_lookup.
      rewrite filter_app, fmap_app.
      destruct (decide (t < deadline)) as [Hin | Hout].
      - rewrite decide_False; [apply lookup_insert_eq |].
        rewrite elem_of_app. intros [Hin' | Hown]; [by apply (Hold _ _) in Hin' |].
        rewrite filter_cons_False in Hown; [by apply not_elem_of_nil in Hown |].
        simpl. unfold THIRTY_MINUTES. subst deadline. lia.
      - rewrite decide_True; [done |]. rewrite elem_of_app. right.
        rewrite filter_cons_True; [by left |]. simpl. unfold THIRTY_MINUTES.
        subst deadline. lia. }
    unfold eval. destruct (decide (t < deadline)) as [Hin | Hout].
    + rewrite (getPendingReminder_fresh _ userId (mkPending slot (clock w)));
        [done | done | simpl; unfold THIRTY_MINUTES; subst deadline; lia].
    + by rewrite getPendingReminder_absent.
  - assert (Hlookup : pendingReminders (advanceBefore t armed) !! userId
                      = if decide (t ≤ deadline)
                        then Some (mkPending slot (clock w)) else None).
    { unfold advanceBefore. simpl. rewrite fireTimers_lookup.
      rewrite filter_app, fmap_app.
      destruct (decide (t ≤ deadline)) as [Hin | Hout].
      - rewrite decide_False; [apply lookup_insert_eq |].
        rewrite elem_of_app. intros [Hin' | Hown]; [by apply (Hold _ _) in Hin' |].
        rewrite filter_cons_False in Hown; [by apply not_elem_of_nil in Hown |].
        simpl. unfold THIRTY_MINUTES. subst deadline. lia.
      - rewrite decide_True; [done |]. rewrite elem_of_app. right.
        rewrite filter_cons_True; [by left |]. simpl. unfold THIRTY_MINUTES.
        subst deadline. lia. }
    unfold eval. destruct (decide (t ≤ deadline)) as [Hin | Hout].
    + rewrite (getPendingReminder_fresh _ userId (mkPending slot (clock w)));
        [done | done | simpl; unfold THIRTY_MINUTES; subst deadline; lia].
    + by rewrite getPendingReminder_absent.
Qed.

Lemma reminder_window_ends_at_thirty_minutes_witness :
  ("U1" ∉ (timers twelveLeft).*2) ∧ clock twelveLeft ≤ 30 * 60 * 1000 ∧
  eval (getPendingReminder "U1")
       (advanceTo (30 * 60 * 1000) (exec (setPendingReminder "U1" 1) twelveLeft))
  = None ∧
  eval (getPendingReminder "U1")
       (advanceBefore (30 * 60 * 1000) (exec (setPendingReminder "U1" 1) twelveLeft))
  = Some (mkPending 1 0).
Proof.
  assert (Hfresh : "U1" ∉ (timers twelveLeft).*2) by apply not_elem_of_nil.
  split; [exact Hfresh |]. split; [by vm_compute |].
  exact (reminder_window_ends_at_thirty_minutes twelveLeft "U1" 1 (30 * 60 * 1000)
           Hfresh ltac:(by vm_compute)).
Defined.

(** ** A failing read inside the medicine functions *)

Lemma getUser_failed_read w userId :
  callFails 0 w = true → eval (getUser userId) w = defaultUser.
Proof.
  intros Hfail. unfold eval, getUser, bind. rewrite loadData_cases, Hfail. cbn [fst snd].
  rewrite lookup_empty. by destruct (saveData _ _).
Qed.

(** X17.  When the Redis read of a medicine function fails, the function
    works on the default profile: [takeMedicine], [refillMedicine] and
    [deleteMedicine] all answer that the medicine was not found, whatever the
    store holds, and do nothing beyond what their profile access did. *)
Theorem failed_read_answers_not_found
    (w : World) (userId medicineId medicineName : string) (amount : Z) :
  callFails 0 w = true →
  takeMedicine userId medicineId w
  = (Failure "ไม่พบยาที่ระบุ", exec (getUser userId) w) ∧
  refillMedicine userId medicineName amount w
  = (Failure "ไม่พบยาที่ระบุ", exec (getUser userId) w) ∧
  deleteMedicine userId medicineName w
  = (Failure "ไม่พบยาที่ระบุ", exec (getUser userId) w) ∧
  consoleErrors (exec (getUser userId) w)
  = consoleErrors w ++ ["Error loading data:"]
                    ++ (if callFails 1 w then ["Error saving data:"] else []).
Proof.
  intros Hfail. pose proof (getUser_failed_read w userId Hfail) as Hdefault.
  split; [| split; [| split]].
  - apply takeMedicine_not_found. by rewrite Hdefault.
  - unfold refillMedicine, bind, eval, exec in *.
    destruct (getUser userId w) as [user w1]. simpl in *. by subst user.
  - unfold deleteMedicine, bind, eval, exec in *.
    destruct (getUser userId w) as [user w1]. simpl in *. by subst user.
  - unfold exec, getUser, bind. rewrite loadData_cases, Hfail. cbn [fst snd].
    rewrite lookup_empty, saveData_cases. simpl.
    unfold callFails in *. destruct w as [d [|[] [|[] f]] e c p t]; simpl in *;
      try done; by rewrite <- ?app_assoc, ?app_nil_r.
Qed.

Lemma failed_read_answers_not_found_witness :
  callFails 0 (withFaults [true] twelveLeft) = true ∧
  eval (takeMedicine "U1" "med_0") twelveLeft = Success (para 10) (Some (mkAlert (para 10) 1)) ∧
  eval (takeMedicine "U1" "med_0") (withFaults [true] twelveLeft) = Failure "ไม่พบยาที่ระบุ".
Proof.
  split; [reflexivity |]. split; [by vm_compute |].
  destruct (failed_read_answers_not_found (withFaults [true] twelveLeft) "U1" "med_0" "Para" 1
              eq_refl) as (Htake & _).
  unfold eval. by rewrite Htake.
Defined.

(** ** Names that hide one another *)




(** ** The daily summary lists the whole cabinet *)





(** ** A dose taken and refilled *)

Lemma list_find_insert_same_name (meds : list Medicine) medicineName i m m' :
  list_find (λ x, nameMatches medicineName x) meds = Some (i, m) → name m' = name m →
  list_find (λ x, nameMatches medicineName x) (<[i := m']> meds) = Some (i, m').
Proof.
  intros Hfind Hname. apply list_find_Some in Hfind as (Hi & Hm & Hfirst).
  apply list_find_Some. split; [| split].
  - apply list_lookup_insert_eq. by eapply lookup_lt_Some.
  - unfold nameMatches in *. by rewrite Hname.
  - intros j y Hj Hlt. rewrite list_lookup_insert_ne in Hj by lia. by eapply Hfirst.
Qed.

Lemma clearAlert_after_check (medicine : Medicine) (key : string) (user : UserProfile)
    (meds : list Medicine) :
  ledger_wf (alertedMedicines user) →
  clearAlert key
    (mkUser meds (settings user) (lowStockCheck medicine key (alertedMedicines user)).2)
  = mkUser meds (settings user) (delete key (alertedMedicines user)).
Proof.
  intros Hwf.
  assert (Hgen : ∀ ledger, ledger_wf ledger →
            clearAlert key (mkUser meds (settings user) ledger)
            = mkUser meds (settings user) (delete key ledger)).
  { intros ledger Hl. unfold clearAlert. cbn [alertedMedicines].
    destruct (ledger !! key) as [level|] eqn:Hk.
    - destruct (Hl key level Hk) as [-> | ->]; reflexivity.
    - cbn [jsTruthy]. by rewrite delete_id. }
  rewrite Hgen by by apply lowStockCheck_wf.
  f_equal. unfold lowStockCheck.
  repeat match goal with |- context [if ?b then _ else _] => destruct b end;
    cbn [snd]; try done; by rewrite delete_insert_eq.
Qed.

(** X20.  In a store that answers, for names in ASCII and Thai script, a
    ledger that holds levels 1 and 2 only and a stock up to
    [Number.MAX_SAFE_INTEGER] (where the subtraction and the addition are
    exact): a dose taken and then refilled by a name that addresses the same
    medicine, with the amount of one dose, gives back the medicines of the
    profile as they were, stock and total included; the settings stay, and
    the ledger entry of the medicine is gone, whether it was set before the
    dose or by it. *)
Theorem dose_taken_then_refilled
    (w : World) (data : gmap string UserProfile) (userId medicineId medicineName : string)
    (user : UserProfile) (i : nat) (m : Medicine) :
  redisFaults w = [] → redisData w = Some data → data !! userId = Some user →
  list_find (λ x, id x = medicineId) (medicines user) = Some (i, m) →
  asciiOrThai medicineName → plainNames user →
  list_find (λ x, nameMatches medicineName x) (medicines user) = Some (i, m) →
  0 ≤ pillsPerDose m ≤ remainingPills m → remainingPills m ≤ MAX_SAFE_INTEGER →
  ledger_wf (alertedMedicines user) →
  let w1 := exec (takeMedicine userId medicineId) w in
  refillMedicine userId medicineName (pillsPerDose m) w1
  = (Success m None,
     withData (Some (<[userId := mkUser (medicines user) (settings user)
                                        (delete medicineId (alertedMedicines user))]> data)) w).
Proof.
  intros Hf Hd Hu Hid _ _ Hname [_ Hle] _ Hwf w1.
  pose proof (takeMedicine_success w data userId user medicineId i m Hf Hd Hu Hid Hle) as Htake.
  cbv zeta in Htake.
  set (after := set_remainingPills (remainingPills m - pillsPerDose m) m) in *.
  set (check := lowStockCheck after medicineId (alertedMedicines user)) in *.
  assert (Hidm : id m = medicineId) by (by apply list_find_Some in Hid as (_ & ? & _)).
  assert (Hi : medicines user !! i = Some m) by (by apply list_find_Some in Hid as (? & _)).
  subst w1. unfold exec. rewrite Htake. cbn [snd].
  erewrite refillMedicine_success;
    [| done | reflexivity | apply lookup_insert_eq
     | cbn [medicines]; apply (list_find_insert_same_name _ _ _ m after); [exact Hname | done]].
  cbv zeta. cbn [medicines set_medicines settings alertedMedicines].
  rewrite withData_withData, insert_insert_eq, list_insert_insert_eq.
  replace (set_remainingPills (remainingPills after + pillsPerDose m) after) with m.
  2:{ destruct m. unfold after, set_remainingPills. cbn. f_equal. lia. }
  rewrite list_insert_id by done.
  replace (id after) with medicineId by done.
  subst check. unfold set_medicines. cbn [settings alertedMedicines].
  by rewrite clearAlert_after_check.
Qed.

Lemma dose_taken_then_refilled_witness :
  refillMedicine "U1" "para" 2 (exec (takeMedicine "U1" "med_0") twelveLeft)
  = (Success (para 12) None,
     withData (Some (<["U1" := mkUser [para 12] (mkSettings "08:00" "20:00")
                                      (delete "med_0" ∅)]>
                       {["U1" := mkUser [para 12] (mkSettings "08:00" "20:00") ∅]}))
              twelveLeft).
Proof.
  apply (dose_taken_then_refilled twelveLeft
           {["U1" := mkUser [para 12] (mkSettings "08:00" "20:00") ∅]}
           "U1" "med_0" "para" (mkUser [para 12] (mkSettings "08:00" "20:00") ∅) 0 (para 12));
    [by vm_compute | by vm_compute | by vm_compute | by vm_compute | by vm_compute
    | apply Forall_singleton; by vm_compute | by vm_compute | by vm_compute | by vm_compute
    | apply map_Forall_empty].
Defined.
